(** * guild_manager: the eligibility engine of [DefaultManager]

    A shallow embedding of [src/guild_manager/cog.py] and of [setup] in
    [src/guild_manager/__init__.py].  The coroutines of the
    cog are written in a state-and-exception monad over a [World] that holds
    what the platform collaborator (discord.py) supplies: the guild cache, the
    clock, the outcome of leave requests, and the history of observable
    effects (hook invocations, attribute reads on guilds, log records). *)

From Stdlib Require Import ZArith List Bool String Lia.
From Stdlib Require Import Floats.SpecFloat.
Import ListNotations.

Open Scope Z_scope.

(** ** Python values *)

Module Py.

(** The exceptions that can leave the cog's coroutines. *)
Inductive exn : Type :=
| ZeroDivisionError
| OverflowError
| TypeError
| HTTPException.

Inductive result (A : Type) : Type :=
| Ok (a : A)
| Raise (e : exn).
Arguments Ok {A} a.
Arguments Raise {A} e.

(** A Python [float] is an IEEE 754 binary64 value. *)
Definition float : Type := spec_float.
Definition prec : Z := 53.
Definition emax : Z := 1024.

(** [sys.maxsize]: no Python list is longer than this. *)
Definition sys_maxsize : Z := 2 ^ 63 - 1.

(** An [int] seen as an (unnormalised) binary float with exponent 0. *)
Definition int_as_float (n : Z) : spec_float :=
  match n with
  | Z0 => S754_zero false
  | Zpos p => S754_finite false p 0
  | Zneg p => S754_finite true p 0
  end.

(** [a / b] on two [int]s: the exact quotient rounded once to the nearest
    binary64 value, [ZeroDivisionError] on a zero divisor and
    [OverflowError] when the rounded quotient is not finite. *)
Definition int_truediv (a b : Z) : result float :=
  if b =? 0 then Raise ZeroDivisionError
  else match SFdiv prec emax (int_as_float a) (int_as_float b) with
       | S754_infinity _ => Raise OverflowError
       | q => Ok q
       end.

(** [x > y] on two [float]s (false as soon as one of them is a NaN). *)
Definition float_gt (x y : float) : bool := SFltb y x.

(** The literal [0.5]. *)
Definition float_0_5 : float := S754_finite false 4503599627370496 (-53).

End Py.
Import Py.

(** ** The platform collaborator *)

Module Discord.

Record Member : Type := { bot : bool }.

(** [created_at] is an aware datetime, in microseconds since the epoch. *)
Record Guild : Type := {
  id : Z;
  name : string;
  created_at : Z;
  member_count : option Z;
  members : list Member
}.

Inductive attr : Type :=
| Attr_id
| Attr_name
| Attr_created_at
| Attr_member_count
| Attr_members.

(** What a recording test double of the platform and of the overridable
    methods would see, in the order it happens. *)
Inductive event : Type :=
| Call_whitelisted (g : Z)
| Call_extra_criteria (g : Z)
| Call_before_leave (g : Z) (new : bool)
| Call_after_leave (g : Z) (new : bool)
| Call_on_guild_limit_reached (g : Z)
| Call_leave (g : Z)
| Call_utcnow
| Get_bot_guilds
| Get (g : Z) (a : attr)
| Log_warning (fmt : string) (guild_name : string) (guild_id : Z).

Record World : Type := {
  bot_guilds : list Guild;      (* [bot.guilds] *)
  clock : Z;                    (* what [discord.utils.utcnow()] answers *)
  leave_raises : Z -> bool;     (* does [guild.leave()] fail for this id *)
  history : list event
}.

Definition record_events (es : list event) (w : World) : World :=
  {| bot_guilds := bot_guilds w;
     clock := clock w;
     leave_raises := leave_raises w;
     history := history w ++ es |}.

End Discord.
Import Discord.

(** ** The monad of the coroutines *)

Definition M (A : Type) : Type := World -> result A * World.

Definition ret {A} (a : A) : M A := fun w => (Ok a, w).

Definition raise {A} (e : exn) : M A := fun w => (Raise e, w).

Definition bind {A B} (m : M A) (k : A -> M B) : M B :=
  fun w =>
    match m w with
    | (Ok a, w') => k a w'
    | (Raise e, w') => (Raise e, w')
    end.

Notation "x <- m ;; k" := (bind m (fun x => k))
  (at level 61, m at next level, right associativity).
Notation "m ;; k" := (bind m (fun _ => k))
  (at level 61, right associativity).

Definition emit (e : event) : M unit := fun w => (Ok tt, record_events [e] w).

(** [discord.utils.utcnow()].  The coroutines do not move the clock: the
    time that passes between two runs is a change of the world. *)
Definition utcnow : M Z := fun w => (Ok (clock w), record_events [Call_utcnow] w).

Definition get_bot_guilds : M (list Guild) :=
  fun w => (Ok (bot_guilds w), record_events [Get_bot_guilds] w).

Definition get {A} (a : attr) (field : Guild -> A) (guild : Guild) : M A :=
  emit (Get (id guild) a) ;; ret (field guild).

(** [await guild.leave()] *)
Definition leave (guild : Guild) : M unit :=
  fun w =>
    if leave_raises w (id guild)
    then (Raise HTTPException, record_events [Call_leave (id guild)] w)
    else (Ok tt, record_events [Call_leave (id guild)] w).

(** [_log.warning(fmt, guild.name, guild.id)] *)
Definition log_warning (fmt : string) (guild : Guild) : M unit :=
  n <- get Attr_name name guild ;;
  i <- get Attr_id id guild ;;
  emit (Log_warning fmt n i).

Fixpoint for_each {A} (body : A -> M unit) (l : list A) : M unit :=
  match l with
  | [] => ret tt
  | x :: l' => body x ;; for_each body l'
  end.

Definition lift {A} (r : result A) : M A := fun w => (r, w).

(** An operand that has to be an [int]: [None < 3] and [3 / None] raise
    [TypeError]. *)
Definition as_int (v : option Z) : M Z :=
  match v with
  | Some n => ret n
  | None => raise TypeError
  end.

(** [sum(m.bot for m in ms)] *)
Definition sum_bots (ms : list Member) : Z :=
  fold_left (fun acc m => acc + (if bot m then 1 else 0)) ms 0.

(** ** The cog *)

(** The attributes set by [__init__] that the eligibility engine reads, and
    the two overridable predicates.  Durations ([datetime.timedelta]) are in
    microseconds. *)
Record DefaultManager : Type := {
  max_guilds : Z;
  min_members : option Z;
  max_members : option Z;
  max_bot_ratio : option float;
  min_guild_age : option Z;
  whitelisted : Guild -> bool;
  extra_criteria : Guild -> bool
}.

(** The bodies of [whitelisted] and [extra_criteria] in the class. *)
Definition whitelisted_default (guild : Guild) : bool := false.
Definition extra_criteria_default (guild : Guild) : bool := false.

(** [DefaultManager(bot)] with every keyword argument left at its default. *)
Definition DefaultManager_init : DefaultManager :=
  {| max_guilds := 98;
     min_members := None;
     max_members := None;
     max_bot_ratio := None;
     min_guild_age := None;
     whitelisted := whitelisted_default;
     extra_criteria := extra_criteria_default |}.

Definition warn_min_members : string :=
  "member_count for guild %s (ID: %s) is None. Cannot check min_members criteria."%string.
Definition warn_max_members : string :=
  "member_count for guild %s (ID: %s) is None. Cannot check max_members criteria."%string.
Definition warn_max_bot_ratio : string :=
  "member_count for guild %s (ID: %s) is None. Cannot check max_bot_ratio criteria."%string.

(** [await discord.utils.maybe_coroutine(self.whitelisted, guild)] *)
Definition call_whitelisted (self : DefaultManager) (guild : Guild) : M bool :=
  emit (Call_whitelisted (id guild)) ;; ret (whitelisted self guild).

(** [await discord.utils.maybe_coroutine(self.extra_criteria, guild)] *)
Definition call_extra_criteria (self : DefaultManager) (guild : Guild) : M bool :=
  emit (Call_extra_criteria (id guild)) ;; ret (extra_criteria self guild).

(** The lifecycle hooks: their bodies are [pass]. *)
Definition before_leave (self : DefaultManager) (guild : Guild) (new : bool) : M unit :=
  emit (Call_before_leave (id guild) new).

Definition after_leave (self : DefaultManager) (guild : Guild) (new : bool) : M unit :=
  emit (Call_after_leave (id guild) new).

Definition on_guild_limit_reached (self : DefaultManager) (guild : Guild) : M unit :=
  emit (Call_on_guild_limit_reached (id guild)).

(** Line 172: [self.min_guild_age is not None and
    discord.utils.utcnow() - guild.created_at > self.min_guild_age]. *)
Definition min_guild_age_test (self : DefaultManager) (guild : Guild) : M bool :=
  match min_guild_age self with
  | None => ret false
  | Some age =>
      now <- utcnow ;;
      created <- get Attr_created_at created_at guild ;;
      ret (age <? now - created)
  end.

(** Lines 174-181. *)
Definition min_members_test (self : DefaultManager) (guild : Guild) : M bool :=
  match min_members self with
  | None => ret false
  | Some lo =>
      mc <- get Attr_member_count member_count guild ;;
      match mc with
      | None => log_warning warn_min_members guild ;; ret false
      | Some _ =>
          mc' <- get Attr_member_count member_count guild ;;
          n <- as_int mc' ;;
          ret (n <? lo)
      end
  end.

(** Lines 182-189. *)
Definition max_members_test (self : DefaultManager) (guild : Guild) : M bool :=
  match max_members self with
  | None => ret false
  | Some hi =>
      mc <- get Attr_member_count member_count guild ;;
      match mc with
      | None => log_warning warn_max_members guild ;; ret false
      | Some _ =>
          mc' <- get Attr_member_count member_count guild ;;
          n <- as_int mc' ;;
          ret (hi <? n)
      end
  end.

(** Lines 190-198. *)
Definition max_bot_ratio_test (self : DefaultManager) (guild : Guild) : M bool :=
  match max_bot_ratio self with
  | None => ret false
  | Some ratio =>
      mc <- get Attr_member_count member_count guild ;;
      match mc with
      | None => log_warning warn_max_bot_ratio guild ;; ret false
      | Some _ =>
          ms <- get Attr_members members guild ;;
          let bots := sum_bots ms in
          mc' <- get Attr_member_count member_count guild ;;
          n <- as_int mc' ;;
          q <- lift (int_truediv bots n) ;;
          ret (float_gt q ratio)
      end
  end.

(** [DefaultManager.leave_criteria], lines 149-199. *)
Definition leave_criteria (self : DefaultManager) (guild : Guild) : M bool :=
  wl <- call_whitelisted self guild ;;
  if wl then ret false else
  c1 <- min_guild_age_test self guild ;;
  if c1 then ret true else
  c2 <- min_members_test self guild ;;
  if c2 then ret true else
  c3 <- max_members_test self guild ;;
  if c3 then ret true else
  c4 <- max_bot_ratio_test self guild ;;
  if c4 then ret true else
  call_extra_criteria self guild.

(** The body of the loop of [_check_guilds], lines 144-147. *)
Definition check_guild (self : DefaultManager) (guild : Guild) : M unit :=
  go <- leave_criteria self guild ;;
  if go then
    before_leave self guild false ;;
    leave guild ;;
    after_leave self guild false
  else ret tt.

(** [DefaultManager._check_guilds], lines 141-147: one pass of the sweep. *)
Definition _check_guilds (self : DefaultManager) : M unit :=
  guilds <- get_bot_guilds ;;
  for_each (check_guild self) guilds.

(** [DefaultManager._on_guild_join], lines 293-302. *)
Definition _on_guild_join (self : DefaultManager) (guild : Guild) : M unit :=
  guilds <- get_bot_guilds ;;
  if max_guilds self <=? Z.of_nat (List.length guilds) then
    on_guild_limit_reached self guild ;;
    leave guild ;;
    after_leave self guild true
  else
    go <- leave_criteria self guild ;;
    if go then
      before_leave self guild true ;;
      leave guild ;;
      after_leave self guild true
    else ret tt.

(** ** Vocabulary of the statements *)

(** Functional updates used to vary one field of a configuration or of a
    snapshot in the statements below. *)
Definition with_min_members (lo : option Z) (self : DefaultManager) : DefaultManager :=
  {| max_guilds := max_guilds self;
     min_members := lo;
     max_members := max_members self;
     max_bot_ratio := max_bot_ratio self;
     min_guild_age := min_guild_age self;
     whitelisted := whitelisted self;
     extra_criteria := extra_criteria self |}.

Definition with_member_count (mc : option Z) (guild : Guild) : Guild :=
  {| id := id guild;
     name := name guild;
     created_at := created_at guild;
     member_count := mc;
     members := members guild |}.

(** Two worlds offer the same platform when the guild cache, the clock and
    the outcome of leave requests agree; their histories may differ. *)
Definition same_platform (w1 w2 : World) : Prop :=
  bot_guilds w1 = bot_guilds w2
  /\ clock w1 = clock w2
  /\ forall g, leave_raises w1 g = leave_raises w2 g.

(** A computation is history blind when, started in two worlds with the same
    platform, it ends the same way and records the same events, and changes
    nothing else. *)
Definition history_blind {A} (m : M A) : Prop :=
  forall w1 w2, same_platform w1 w2 ->
    exists (r : result A) (es : list event),
      m w1 = (r, record_events es w1) /\ m w2 = (r, record_events es w2).

(** The guilds that a run decided to leave after evaluating the criteria. *)
Definition leave_decisions (es : list event) : list Z :=
  flat_map (fun e => match e with
                     | Call_before_leave g _ => [g]
                     | _ => []
                     end) es.

(** The events that a run from [w] to [w'] added to the history. *)
Definition new_events (w w' : World) : list event :=
  skipn (List.length (history w)) (history w').


(** ** Configurations, guilds and worlds used as examples *)

Definition guild_c1 : Guild :=
  {| id := 1; name := "tiny"%string; created_at := 0;
     member_count := Some 2; members := [ {| bot := true |}; {| bot := true |} ] |}.

Definition manager_c1 : DefaultManager :=
  {| max_guilds := 98;
     min_members := Some 100;
     max_members := Some 1;
     max_bot_ratio := Some float_0_5;
     min_guild_age := Some 1;
     whitelisted := fun _ => true;
     extra_criteria := fun _ => true |}.

Definition world_c1 : World :=
  {| bot_guilds := [guild_c1]; clock := 1000; leave_raises := fun _ => false;
     history := [] |}.

Definition manager_c5 : DefaultManager :=
  {| max_guilds := 98;
     min_members := Some 100;
     max_members := Some 1;
     max_bot_ratio := Some (S754_zero false);
     min_guild_age := Some 604800000000;
     whitelisted := whitelisted_default;
     extra_criteria := extra_criteria_default |}.

Definition guild_c5 : Guild :=
  {| id := 5; name := "no intent"%string; created_at := 1000000000000000;
     member_count := None; members := [ {| bot := true |} ] |}.

Definition world_c5 : World :=
  {| bot_guilds := [guild_c5]; clock := 1000086400000000;
     leave_raises := fun _ => false; history := [] |}.

Definition manager_c6 : DefaultManager :=
  {| max_guilds := 98;
     min_members := Some 10;
     max_members := None;
     max_bot_ratio := None;
     min_guild_age := Some 604800000000;
     whitelisted := whitelisted_default;
     extra_criteria := extra_criteria_default |}.

Definition guild_c6 : Guild :=
  {| id := 6; name := "old and small"%string; created_at := 1000000000000000;
     member_count := Some 5; members := [] |}.

Definition world_c6 : World :=
  {| bot_guilds := [guild_c6]; clock := 1002592000000000;
     leave_raises := fun _ => false; history := [] |}.

Definition guild_a : Guild :=
  {| id := 11; name := "a"%string; created_at := 0;
     member_count := Some 40; members := [] |}.

Definition guild_b : Guild :=
  {| id := 12; name := "b"%string; created_at := 0;
     member_count := Some 50; members := [] |}.

Definition guild_new : Guild :=
  {| id := 13; name := "c"%string; created_at := 0;
     member_count := Some 60; members := [] |}.

Definition manager_c4 : DefaultManager :=
  {| max_guilds := 2;
     min_members := Some 1000;
     max_members := None;
     max_bot_ratio := None;
     min_guild_age := None;
     whitelisted := fun _ => true;
     extra_criteria := fun _ => true |}.

Definition world_c4 : World :=
  {| bot_guilds := [guild_a; guild_b; guild_new]; clock := 0;
     leave_raises := fun _ => false; history := [] |}.

(** Seven days, in microseconds. *)
Definition seven_days : Z := 7 * 86400 * 1000000.
Definition one_day : Z := 86400 * 1000000.

Definition manager_c2 : DefaultManager :=
  {| max_guilds := 98;
     min_members := None;
     max_members := None;
     max_bot_ratio := None;
     min_guild_age := Some seven_days;
     whitelisted := whitelisted_default;
     extra_criteria := extra_criteria_default |}.

Definition guild_c2 : Guild :=
  {| id := 2; name := "created yesterday"%string; created_at := 1000000000000000;
     member_count := Some 50; members := [] |}.

Definition world_c2 : World :=
  {| bot_guilds := [guild_c2]; clock := 1000000000000000 + one_day;
     leave_raises := fun _ => false; history := [] |}.

Definition manager_c8 : DefaultManager :=
  {| max_guilds := 98;
     min_members := None;
     max_members := None;
     max_bot_ratio := Some float_0_5;
     min_guild_age := None;
     whitelisted := whitelisted_default;
     extra_criteria := extra_criteria_default |}.

Definition human : Member := {| bot := false |}.
Definition robot : Member := {| bot := true |}.

Definition guild_6_bots : Guild :=
  {| id := 86; name := "six bots"%string; created_at := 0;
     member_count := Some 10;
     members := [robot; human; robot; robot; human; robot; human; robot;
                 human; robot] |}.

Definition guild_5_bots : Guild :=
  {| id := 85; name := "five bots"%string; created_at := 0;
     member_count := Some 10;
     members := [robot; human; robot; human; human; robot; human; robot;
                 human; robot] |}.

Definition world_c8 : World :=
  {| bot_guilds := [guild_6_bots; guild_5_bots]; clock := 0;
     leave_raises := fun _ => false; history := [] |}.

Definition manager_c9 : DefaultManager :=
  {| max_guilds := 98;
     min_members := Some 45;
     max_members := None;
     max_bot_ratio := Some float_0_5;
     min_guild_age := None;
     whitelisted := whitelisted_default;
     extra_criteria := extra_criteria_default |}.

Definition world_c9 : World :=
  {| bot_guilds := [guild_a; guild_6_bots; guild_b]; clock := 0;
     leave_raises := fun _ => false; history := [] |}.

Definition manager_c7 : DefaultManager :=
  {| max_guilds := 98;
     min_members := Some 100;
     max_members := None;
     max_bot_ratio := None;
     min_guild_age := None;
     whitelisted := whitelisted_default;
     extra_criteria := extra_criteria_default |}.

(** Both guilds are too small; the request to leave the first one fails. *)
Definition world_c7 : World :=
  {| bot_guilds := [guild_a; guild_b]; clock := 0;
     leave_raises := fun g => g =? 11; history := [] |}.

Definition guild_zero : Guild :=
  {| id := 3; name := "count zero"%string; created_at := 0;
     member_count := Some 0; members := [] |}.

Definition world_c3 : World :=
  {| bot_guilds := [guild_zero]; clock := 0;
     leave_raises := fun _ => false; history := [] |}.

(** ** Construction and scheduling of the sweep *)

(** The objects that can be passed as [frequency]; [bool] is a subclass of
    [int], and [Py_other] stands for an object of any other class. *)
Inductive pyobj : Type :=
| Py_timedelta (microseconds : Z)
| Py_int (n : Z)
| Py_bool (b : bool)
| Py_float (x : float)
| Py_other (class_name : string).

(** [timedelta.total_seconds()]: the microseconds divided by [10**6]. *)
Definition total_seconds (microseconds : Z) : result float :=
  int_truediv microseconds (10 ^ 6).

(** The keyword arguments of [__init__]. *)
Record Kwargs : Type := {
  kw_max_guilds : Z;
  kw_min_members : option Z;
  kw_max_members : option Z;
  kw_max_bot_ratio : option float;
  kw_min_guild_age : option Z;
  kw_frequency : option pyobj
}.

(** The defaults of the signature, lines 106-111. *)
Definition default_kwargs : Kwargs :=
  {| kw_max_guilds := 98;
     kw_min_members := None;
     kw_max_members := None;
     kw_max_bot_ratio := None;
     kw_min_guild_age := None;
     kw_frequency := None |}.

(** The two predicates of the class being instantiated ([DefaultManager]
    itself or a subclass that overrides them). *)
Record Class : Type := {
  cls_whitelisted : Guild -> bool;
  cls_extra_criteria : Guild -> bool
}.

Definition DefaultManager_class : Class :=
  {| cls_whitelisted := whitelisted_default;
     cls_extra_criteria := extra_criteria_default |}.

(** The whole instance: the attributes read by the eligibility engine, plus
    [frequency] and the private [__seconds] ([None] for
    [discord.utils.MISSING]). *)
Record Cog : Type := {
  manager : DefaultManager;
  frequency : option pyobj;
  seconds : option pyobj
}.

(** [DefaultManager.__init__], lines 102-130. *)
Definition __init__ (cls : Class) (kw : Kwargs) : result Cog :=
  let self_with (secs : option pyobj) :=
    {| manager :=
         {| max_guilds := kw_max_guilds kw;
            min_members := kw_min_members kw;
            max_members := kw_max_members kw;
            max_bot_ratio := kw_max_bot_ratio kw;
            min_guild_age := kw_min_guild_age kw;
            whitelisted := cls_whitelisted cls;
            extra_criteria := cls_extra_criteria cls |};
       frequency := kw_frequency kw;
       seconds := secs |} in
  match kw_frequency kw with
  | None => Ok (self_with None)
  | Some (Py_timedelta us) =>
      (* isinstance(self.frequency, datetime.timedelta) *)
      match total_seconds us with
      | Ok s => Ok (self_with (Some (Py_float s)))
      | Raise e => Raise e
      end
  | Some (Py_int n) => Ok (self_with (Some (Py_int n)))
  | Some (Py_bool b) => Ok (self_with (Some (Py_bool b)))
  | Some (Py_float x) => Ok (self_with (Some (Py_float x)))
  | Some (Py_other _) => Raise TypeError
  end.

(** The part of [discord.ext.tasks.Loop] that the cog uses on
    [self._check_guilds]; what these calls do is the library's business. *)
Record Loop : Type := {
  change_interval : pyobj -> M unit;
  start : M unit;
  cancel : M unit
}.

(** [DefaultManager.cog_load], lines 132-135. *)
Definition cog_load (loop : Loop) (self : Cog) : M unit :=
  match seconds self with
  | None => ret tt
  | Some s => change_interval loop s ;; start loop
  end.

(** [DefaultManager.cog_unload], lines 137-139. *)
Definition cog_unload (loop : Loop) (self : Cog) : M unit :=
  match seconds self with
  | None => ret tt
  | Some _ => cancel loop
  end.

(** [setup] of [guild_manager/__init__.py]:
    [await bot.add_cog(DefaultManager(bot))]. *)
Definition setup (add_cog : Cog -> M unit) : M unit :=
  match __init__ DefaultManager_class default_kwargs with
  | Ok cog => add_cog cog
  | Raise e => raise e
  end.

(** ** Vocabulary for the structure of a run *)

(** The guild an event is about, and the [new] flag it carries. *)
Definition event_guild (e : event) : option Z :=
  match e with
  | Call_whitelisted g | Call_extra_criteria g | Call_before_leave g _
  | Call_after_leave g _ | Call_on_guild_limit_reached g | Call_leave g
  | Get g _ | Log_warning _ _ g => Some g
  | Call_utcnow | Get_bot_guilds => None
  end.

Definition event_new (e : event) : option bool :=
  match e with
  | Call_before_leave _ new | Call_after_leave _ new => Some new
  | _ => None
  end.

(** The events by which the built-in criteria inspect guild [g]: reading
    the clock, reading an attribute of [g], logging a warning about [g]. *)
Definition criterion_event (g : Z) (e : event) : Prop :=
  match e with
  | Call_utcnow => True
  | Get g' _ => g' = g
  | Log_warning _ _ g' => g' = g
  | _ => False
  end.

Definition is_warning (e : event) : bool :=
  match e with
  | Log_warning _ _ _ => true
  | _ => false
  end.

(** A computation emits only events that satisfy [P]; it changes nothing
    else of the world. *)
Definition emits {A} (P : event -> Prop) (m : M A) : Prop :=
  forall w, exists (r : result A) (es : list event),
    m w = (r, record_events es w) /\ Forall P es.

Definition whitelisted_calls (es : list event) : list Z :=
  flat_map (fun e => match e with
                     | Call_whitelisted g => [g]
                     | _ => []
                     end) es.

Definition leave_calls (es : list event) : list Z :=
  flat_map (fun e => match e with
                     | Call_leave g => [g]
                     | _ => []
                     end) es.

Definition after_leave_calls (es : list event) : list Z :=
  flat_map (fun e => match e with
                     | Call_after_leave g _ => [g]
                     | _ => []
                     end) es.

(** Does [leave_criteria] answer [True] for this guild in this world. *)
Definition verdict (self : DefaultManager) (w : World) (guild : Guild) : bool :=
  match fst (leave_criteria self guild w) with
  | Ok true => true
  | _ => false
  end.

(** The limits named in the docstring of [leave_criteria], each as the
    code tests it. *)
Definition too_old (self : DefaultManager) (guild : Guild) (now : Z) : bool :=
  match min_guild_age self with
  | Some age => age <? now - created_at guild
  | None => false
  end.

Definition too_few (self : DefaultManager) (guild : Guild) : bool :=
  match min_members self, member_count guild with
  | Some lo, Some n => n <? lo
  | _, _ => false
  end.

Definition too_many (self : DefaultManager) (guild : Guild) : bool :=
  match max_members self, member_count guild with
  | Some hi, Some n => hi <? n
  | _, _ => false
  end.

Definition too_many_bots (self : DefaultManager) (guild : Guild) : result bool :=
  match max_bot_ratio self, member_count guild with
  | Some ratio, Some n =>
      match int_truediv (sum_bots (members guild)) n with
      | Ok q => Ok (float_gt q ratio)
      | Raise e => Raise e
      end
  | _, _ => Ok false
  end.

(** How many of the three member criteria are configured. *)
Definition configured {A} (o : option A) : nat :=
  match o with
  | Some _ => 1
  | None => 0
  end.

Definition member_criteria_configured (self : DefaultManager) : nat :=
  (configured (min_members self) + configured (max_members self)
   + configured (max_bot_ratio self))%nat.

(** A float below zero. *)
Definition float_is_negative (x : float) : bool :=
  match x with
  | S754_finite true _ _ | S754_infinity true => true
  | _ => false
  end.

(** What [leave_criteria] may emit after the call to [whitelisted]:
    inspections of the guild, then at most one call to [extra_criteria],
    which is then the last event. *)
Definition criteria_trace (g : Z) (es : list event) : Prop :=
  Forall (criterion_event g) es
  \/ exists es', es = es' ++ [Call_extra_criteria g]
                 /\ Forall (criterion_event g) es'.

Definition shaped (g : Z) {A} (m : M A) : Prop :=
  forall w, exists (r : result A) (es : list event),
    m w = (r, record_events es w) /\ criteria_trace g es.

(** The events of one evaluation of the criteria on guild [g]. *)
Definition evaluation_event (g : Z) (e : event) : Prop :=
  e = Call_whitelisted g \/ e = Call_extra_criteria g \/ criterion_event g e.

(** An event that is about no other guild than [g] and does not carry
    [new=False]. *)
Definition about_new_guild (g : Z) (e : event) : Prop :=
  (forall g', event_guild e = Some g' -> g' = g)
  /\ event_new e <> Some false.

(** An event that is about no guild outside [gs], does not carry
    [new=True] and is not a call to [on_guild_limit_reached]. *)
Definition sweep_event (gs : list Guild) (e : event) : Prop :=
  (forall g', event_guild e = Some g' -> In g' (map id gs))
  /\ event_new e <> Some true
  /\ (forall g', e <> Call_on_guild_limit_reached g').

(** A guild that one step of the sweep gets through without an exception:
    its evaluation returns, and if the answer is [True] the leave request
    does not fail. *)
Definition processed_cleanly (self : DefaultManager) (w : World) (guild : Guild) : Prop :=
  (exists b, fst (leave_criteria self guild w) = Ok b)
  /\ (verdict self w guild = true -> leave_raises w (id guild) = false).

(** The range of [datetime.timedelta], in microseconds: from
    [timedelta.min] (-999999999 days) to [timedelta.max]. *)
Definition timedelta_min : Z := - (999999999 * 86400 * 10 ^ 6).
Definition timedelta_max : Z := (999999999 * 86400 + 86399) * 10 ^ 6 + 999999.

Definition kwargs_every_5_minutes : Kwargs :=
  {| kw_max_guilds := 98;
     kw_min_members := Some 10;
     kw_max_members := Some 5;
     kw_max_bot_ratio := None;
     kw_min_guild_age := None;
     kw_frequency := Some (Py_timedelta (300 * 10 ^ 6)) |}.

Definition kwargs_frequency_zero : Kwargs :=
  {| kw_max_guilds := 98;
     kw_min_members := None;
     kw_max_members := None;
     kw_max_bot_ratio := None;
     kw_min_guild_age := None;
     kw_frequency := Some (Py_int 0) |}.

(** A loop whose operations do nothing. *)
Definition idle_loop : Loop :=
  {| change_interval := fun _ => ret tt; start := ret tt; cancel := ret tt |}.

Definition manager_bounds : DefaultManager :=
  {| max_guilds := 98;
     min_members := Some 40;
     max_members := Some 50;
     max_bot_ratio := None;
     min_guild_age := None;
     whitelisted := whitelisted_default;
     extra_criteria := extra_criteria_default |}.

(** ** Vocabulary for two passes of the sweep *)



(** Two worlds in which a pass over [gs] is given the same answers: the
    same guild cache, the same outcome of the leave requests, and for each
    guild of [gs] the same answer of the age test at the two clocks.  The
    histories, and the clocks themselves, may differ. *)
Definition same_answers (self : DefaultManager) (gs : list Guild)
    (w1 w2 : World) : Prop :=
  bot_guilds w1 = bot_guilds w2
  /\ (forall g, leave_raises w1 g = leave_raises w2 g)
  /\ (forall guild, In guild gs ->
         too_old self guild (clock w1) = too_old self guild (clock w2)).

(** A computation repeats itself: started in two such worlds it ends the
    same way and records the same events. *)
Definition repeats (self : DefaultManager) (gs : list Guild) {A} (m : M A) : Prop :=
  forall w1 w2, same_answers self gs w1 w2 ->
    exists (r : result A) (es : list event),
      m w1 = (r, record_events es w1) /\ m w2 = (r, record_events es w2).




(** ** Basic facts about the monad and the history *)

Lemma record_events_app (es1 es2 : list event) (w : World) :
  record_events es2 (record_events es1 w) = record_events (es1 ++ es2) w.
Proof.
  unfold record_events; simpl. now rewrite app_assoc.
Qed.

Lemma record_events_nil (w : World) : record_events [] w = w.
Proof.
  destruct w; unfold record_events; simpl. now rewrite app_nil_r.
Qed.

(** Unfold the coroutines down to the primitive steps and merge the
    recorded events. *)
Ltac run :=
  unfold _on_guild_join, _check_guilds, check_guild, leave_criteria,
    min_guild_age_test, min_members_test, max_members_test, max_bot_ratio_test,
    call_whitelisted, call_extra_criteria, before_leave, after_leave,
    on_guild_limit_reached, log_warning, get, get_bot_guilds, utcnow, leave,
    as_int, lift, emit, raise, bind, ret in *;
  cbn [fst snd] in *.

Lemma clock_record_events (es : list event) (w : World) :
  clock (record_events es w) = clock w.
Proof. reflexivity. Qed.

Lemma bot_guilds_record_events (es : list event) (w : World) :
  bot_guilds (record_events es w) = bot_guilds w.
Proof. reflexivity. Qed.

Lemma leave_raises_record_events (es : list event) (w : World) :
  leave_raises (record_events es w) = leave_raises w.
Proof. reflexivity. Qed.

Lemma history_record_events (es : list event) (w : World) :
  history (record_events es w) = history w ++ es.
Proof. reflexivity. Qed.

Create Rewrite HintDb world.
#[global] Hint Rewrite clock_record_events bot_guilds_record_events
  leave_raises_record_events record_events_app : world.

Ltac merge := autorewrite with world; cbn [app].

(** The literal [0.5] is the float that [1 / 2] evaluates to. *)
Example float_0_5_is_half : int_truediv 1 2 = Ok float_0_5.
Proof. reflexivity. Qed.

(** ** The whitelist and the default configuration *)

(** C1: a guild for which [whitelisted] answers true is never left: the
    verdict is [False] whatever [min_members], [max_members],
    [max_bot_ratio], [min_guild_age] and [extra_criteria] are, and nothing
    but the [whitelisted] hook has been consulted. *)
Theorem whitelist_overrides_every_criterion
    (self : DefaultManager) (guild : Guild) (w : World) :
  whitelisted self guild = true ->
  leave_criteria self guild w
  = (Ok false, record_events [Call_whitelisted (id guild)] w).
Proof.
  intros Hwl. run. now rewrite Hwl.
Qed.

Lemma whitelist_overrides_every_criterion_witness :
  leave_criteria manager_c1 guild_c1 world_c1
  = (Ok false, record_events [Call_whitelisted 1] world_c1).
Proof.
  apply (whitelist_overrides_every_criterion manager_c1 guild_c1 world_c1).
  reflexivity.
Defined.

(** C10: with [min_members], [max_members], [max_bot_ratio] and
    [min_guild_age] all [None] and both predicates answering false, the
    verdict is [False] for every guild; only the two hooks are consulted. *)
Theorem default_configuration_never_leaves
    (self : DefaultManager) (guild : Guild) (w : World) :
  min_members self = None ->
  max_members self = None ->
  max_bot_ratio self = None ->
  min_guild_age self = None ->
  whitelisted self guild = false ->
  extra_criteria self guild = false ->
  leave_criteria self guild w
  = (Ok false,
     record_events [Call_whitelisted (id guild); Call_extra_criteria (id guild)] w).
Proof.
  intros H1 H2 H3 H4 Hwl Hex. run.
  rewrite Hwl, H4, H1, H2, H3, Hex. now merge.
Qed.

Lemma default_configuration_never_leaves_witness :
  leave_criteria DefaultManager_init guild_c1 world_c1
  = (Ok false, record_events [Call_whitelisted 1; Call_extra_criteria 1] world_c1).
Proof.
  apply (default_configuration_never_leaves DefaultManager_init guild_c1 world_c1);
    reflexivity.
Defined.

(** ** Unknown member counts *)

(** C5: when [member_count] is [None] and neither the whitelist, nor the age
    test, nor [extra_criteria] decides to leave, the verdict is [False]
    whatever [min_members], [max_members] and [max_bot_ratio] are set to. *)
Theorem unknown_member_count_fails_open
    (self : DefaultManager) (guild : Guild) (w : World) :
  member_count guild = None ->
  whitelisted self guild = false ->
  (forall age, min_guild_age self = Some age -> clock w - created_at guild <= age) ->
  extra_criteria self guild = false ->
  fst (leave_criteria self guild w) = Ok false.
Proof.
  intros Hmc Hwl Hage Hex. run. rewrite Hwl, Hmc, Hex.
  destruct (min_guild_age self) as [age|].
  - specialize (Hage age eq_refl). merge.
    apply Z.ltb_ge in Hage. rewrite Hage.
    destruct (min_members self), (max_members self), (max_bot_ratio self);
      reflexivity.
  - destruct (min_members self), (max_members self), (max_bot_ratio self);
      reflexivity.
Qed.

Lemma unknown_member_count_fails_open_witness :
  fst (leave_criteria manager_c5 guild_c5 world_c5) = Ok false.
Proof.
  apply (unknown_member_count_fails_open manager_c5 guild_c5 world_c5).
  - reflexivity.
  - reflexivity.
  - intros age [= <-]. simpl. lia.
  - reflexivity.
Defined.

(** ** Order of the criteria *)

(** C6: when the whitelist does not apply and both the age test of line 172
    ([utcnow() - created_at > min_guild_age]) and the [min_members] test
    ([member_count < min_members]) would reject, the verdict [True] comes
    from the age test: the run reads the clock and [created_at] and stops,
    [member_count] is never read, and replacing the member count and the
    [min_members] setting by anything else changes neither the verdict nor
    what was observed. *)
Theorem min_age_decides_before_min_members
    (self : DefaultManager) (guild : Guild) (w : World) (age lo n : Z) :
  whitelisted self guild = false ->
  min_guild_age self = Some age ->
  age < clock w - created_at guild ->
  min_members self = Some lo ->
  member_count guild = Some n ->
  n < lo ->
  let seen := [Call_whitelisted (id guild); Call_utcnow;
               Get (id guild) Attr_created_at] in
  leave_criteria self guild w = (Ok true, record_events seen w)
  /\ ~ In (Get (id guild) Attr_member_count) seen
  /\ forall (mc' lo' : option Z),
       whitelisted self (with_member_count mc' guild) = false ->
       leave_criteria (with_min_members lo' self) (with_member_count mc' guild) w
       = (Ok true, record_events seen w).
Proof.
  intros Hwl Hage Hold Hlo Hmc Hlt seen. apply Z.ltb_lt in Hold.
  split; [|split].
  - run. rewrite Hwl, Hage. merge. now rewrite Hold.
  - cbn. intros [H|[H|[H|[]]]]; discriminate.
  - intros mc' lo' Hwl'. run. cbn. rewrite Hwl', Hage. merge. now rewrite Hold.
Qed.

Lemma min_age_decides_before_min_members_witness :
  leave_criteria manager_c6 guild_c6 world_c6
  = (Ok true,
     record_events [Call_whitelisted 6; Call_utcnow; Get 6 Attr_created_at] world_c6).
Proof.
  refine (proj1 (min_age_decides_before_min_members
                   manager_c6 guild_c6 world_c6 604800000000 10 5 _ _ _ _ _ _)).
  - reflexivity.
  - reflexivity.
  - simpl. lia.
  - reflexivity.
  - reflexivity.
  - lia.
Defined.

(** ** Admission control *)

(** C4: when [len(bot.guilds)] has reached [max_guilds], the join handler
    calls [on_guild_limit_reached], then [guild.leave()], then
    [after_leave] with [new=True], and nothing else: [whitelisted],
    [extra_criteria] and [before_leave] are not called and no criterion is
    evaluated.  (Should [guild.leave()] raise, the exception leaves the
    handler right there, still without any of those calls.) *)
Theorem guild_limit_bypasses_criteria
    (self : DefaultManager) (guild : Guild) (w : World) :
  max_guilds self <= Z.of_nat (List.length (bot_guilds w)) ->
  _on_guild_join self guild w
  = if leave_raises w (id guild)
    then (Raise HTTPException,
          record_events [Get_bot_guilds;
                         Call_on_guild_limit_reached (id guild);
                         Call_leave (id guild)] w)
    else (Ok tt,
          record_events [Get_bot_guilds;
                         Call_on_guild_limit_reached (id guild);
                         Call_leave (id guild);
                         Call_after_leave (id guild) true] w).
Proof.
  intros Hfull. apply Z.leb_le in Hfull. run. rewrite Hfull. merge.
  destruct (leave_raises w (id guild)); now merge.
Qed.

Lemma guild_limit_bypasses_criteria_witness :
  _on_guild_join manager_c4 guild_new world_c4
  = (Ok tt,
     record_events [Get_bot_guilds; Call_on_guild_limit_reached 13;
                    Call_leave 13; Call_after_leave 13 true] world_c4).
Proof.
  apply (guild_limit_bypasses_criteria manager_c4 guild_new world_c4).
  simpl. lia.
Defined.

(** ** The age test *)

(** C2: the code at line 172 leaves guilds that are older than
    [min_guild_age], not younger.  For a guild created more recently than
    [min_guild_age] ago, with no other criterion configured and both
    predicates answering false, the verdict is [False]: the guild is kept,
    where the attribute's documentation says it is left. *)
Theorem young_guild_is_kept
    (self : DefaultManager) (guild : Guild) (w : World) (age : Z) :
  whitelisted self guild = false ->
  min_guild_age self = Some age ->
  clock w - created_at guild < age ->
  min_members self = None ->
  max_members self = None ->
  max_bot_ratio self = None ->
  extra_criteria self guild = false ->
  leave_criteria self guild w
  = (Ok false,
     record_events [Call_whitelisted (id guild); Call_utcnow;
                    Get (id guild) Attr_created_at;
                    Call_extra_criteria (id guild)] w).
Proof.
  intros Hwl Hage Hyoung H1 H2 H3 Hex.
  assert (Hcmp : (age <? clock w - created_at guild) = false)
    by (apply Z.ltb_ge; lia).
  run. rewrite Hwl, Hage. merge. rewrite Hcmp, H1, H2, H3, Hex. now merge.
Qed.

Lemma young_guild_is_kept_witness :
  leave_criteria manager_c2 guild_c2 world_c2
  = (Ok false,
     record_events [Call_whitelisted 2; Call_utcnow; Get 2 Attr_created_at;
                    Call_extra_criteria 2] world_c2).
Proof.
  apply (young_guild_is_kept manager_c2 guild_c2 world_c2 seven_days).
  - reflexivity.
  - reflexivity.
  - vm_compute. reflexivity.
  - reflexivity.
  - reflexivity.
  - reflexivity.
  - reflexivity.
Defined.

(** ** The bot ratio *)

(** C8: with [max_bot_ratio=0.5] and nothing else configured, a guild with
    [member_count=10] is left when 6 of its listed members are bots
    ([6/10 > 0.5]) and kept when 5 are ([5/10 > 0.5] is false). *)
Theorem bot_ratio_is_strict
    (self : DefaultManager) (guild : Guild) (w : World) :
  whitelisted self guild = false ->
  min_guild_age self = None ->
  min_members self = None ->
  max_members self = None ->
  max_bot_ratio self = Some float_0_5 ->
  extra_criteria self guild = false ->
  member_count guild = Some 10 ->
  (sum_bots (members guild) = 6 ->
   fst (leave_criteria self guild w) = Ok true)
  /\ (sum_bots (members guild) = 5 ->
      fst (leave_criteria self guild w) = Ok false).
Proof.
  intros Hwl H1 H2 H3 H4 Hex Hmc.
  split; intros Hbots; run;
    rewrite Hwl, H1, H2, H3, H4, Hmc, Hbots, Hex; reflexivity.
Qed.

Lemma bot_ratio_is_strict_witness :
  fst (leave_criteria manager_c8 guild_6_bots world_c8) = Ok true
  /\ fst (leave_criteria manager_c8 guild_5_bots world_c8) = Ok false.
Proof.
  split.
  - apply (bot_ratio_is_strict manager_c8 guild_6_bots world_c8);
      reflexivity.
  - apply (bot_ratio_is_strict manager_c8 guild_5_bots world_c8);
      reflexivity.
Defined.

(** ** The coroutines never look at the history *)

Lemma same_platform_refl (w : World) : same_platform w w.
Proof. repeat split. Qed.

Lemma same_platform_record (es1 es2 : list event) (w1 w2 : World) :
  same_platform w1 w2 ->
  same_platform (record_events es1 w1) (record_events es2 w2).
Proof. intros H. exact H. Qed.

Section Blind.

Context {A B : Type}.

Lemma blind_ret (a : A) : history_blind (ret a).
Proof.
  intros w1 w2 _. exists (Ok a), []. now rewrite !record_events_nil.
Qed.

Lemma blind_raise (e : exn) : history_blind (@raise A e).
Proof.
  intros w1 w2 _. exists (Raise e), []. now rewrite !record_events_nil.
Qed.

Lemma blind_lift (r : result A) : history_blind (lift r).
Proof.
  intros w1 w2 _. exists r, []. now rewrite !record_events_nil.
Qed.

Lemma blind_bind (m : M A) (k : A -> M B) :
  history_blind m -> (forall a, history_blind (k a)) ->
  history_blind (bind m k).
Proof.
  intros Hm Hk w1 w2 Hw.
  destruct (Hm w1 w2 Hw) as (r & es & E1 & E2).
  unfold bind. rewrite E1, E2. destruct r as [a|e].
  - destruct (Hk a (record_events es w1) (record_events es w2)
                (same_platform_record es es w1 w2 Hw)) as (r' & es' & E1' & E2').
    exists r', (es ++ es'). now rewrite E1', E2', !record_events_app.
  - now exists (Raise e), es.
Qed.

End Blind.

Lemma blind_emit (e : event) : history_blind (emit e).
Proof. intros w1 w2 _. now exists (Ok tt), [e]. Qed.

Lemma blind_utcnow : history_blind utcnow.
Proof.
  intros w1 w2 (_ & Hc & _). exists (Ok (clock w1)), [Call_utcnow].
  unfold utcnow. now rewrite Hc.
Qed.

Lemma blind_get_bot_guilds : history_blind get_bot_guilds.
Proof.
  intros w1 w2 (Hg & _). exists (Ok (bot_guilds w1)), [Get_bot_guilds].
  unfold get_bot_guilds. now rewrite Hg.
Qed.

Lemma blind_leave (guild : Guild) : history_blind (leave guild).
Proof.
  intros w1 w2 (_ & _ & Hl). unfold leave. rewrite <- (Hl (id guild)).
  destruct (leave_raises w1 (id guild)).
  - now exists (Raise HTTPException), [Call_leave (id guild)].
  - now exists (Ok tt), [Call_leave (id guild)].
Qed.

Create HintDb blind.
#[global] Hint Resolve blind_emit blind_utcnow blind_get_bot_guilds blind_leave : blind.

(** Walk through a coroutine step by step. *)
Ltac blind :=
  repeat first
    [ apply blind_ret
    | apply blind_raise
    | apply blind_lift
    | solve [auto with blind]
    | apply blind_bind; [ | intros ? ]
    | match goal with
      | |- history_blind (match ?x with _ => _ end) => destruct x
      end ].

Lemma blind_get {A} (a : attr) (field : Guild -> A) (guild : Guild) :
  history_blind (get a field guild).
Proof. unfold get. blind. Qed.

#[global] Hint Resolve blind_get : blind.

Lemma blind_log_warning (fmt : string) (guild : Guild) :
  history_blind (log_warning fmt guild).
Proof. unfold log_warning. blind. Qed.

#[global] Hint Resolve blind_log_warning : blind.

Lemma blind_leave_criteria (self : DefaultManager) (guild : Guild) :
  history_blind (leave_criteria self guild).
Proof.
  unfold leave_criteria, call_whitelisted, call_extra_criteria,
    min_guild_age_test, min_members_test, max_members_test,
    max_bot_ratio_test, as_int.
  blind.
Qed.

Lemma blind_check_guild (self : DefaultManager) (guild : Guild) :
  history_blind (check_guild self guild).
Proof.
  unfold check_guild, before_leave, after_leave.
  apply blind_bind; [ apply blind_leave_criteria | intros go ]. blind.
Qed.

Lemma blind_for_each {A} (body : A -> M unit) (l : list A) :
  (forall x, history_blind (body x)) -> history_blind (for_each body l).
Proof.
  intros Hbody. induction l as [|x l IH]; cbn [for_each].
  - apply blind_ret.
  - apply blind_bind; [ apply Hbody | intros _; exact IH ].
Qed.

(** What a run records is appended to the history; the platform is left as
    it was. *)
Lemma blind_frame {A} (m : M A) (w w' : World) (r : result A) :
  history_blind m -> m w = (r, w') -> exists es, w' = record_events es w.
Proof.
  intros Hm E. destruct (Hm w w (same_platform_refl w)) as (r' & es & E' & _).
  rewrite E in E'. injection E' as _ ->. now exists es.
Qed.

(** ** The sweep *)

Lemma new_events_record_events (es : list event) (w : World) :
  new_events w (record_events es w) = es.
Proof.
  unfold new_events. rewrite history_record_events, skipn_app, skipn_all.
  now rewrite Nat.sub_diag.
Qed.

Lemma for_each_app {A} (body : A -> M unit) (l1 l2 : list A) (w : World) :
  for_each body (l1 ++ l2) w = (for_each body l1 ;; for_each body l2) w.
Proof.
  revert w. induction l1 as [|x l1 IH]; intros w; cbn [app for_each].
  - reflexivity.
  - unfold bind in *. destruct (body x w) as [[[]|e] w'].
    + apply IH.
    + reflexivity.
Qed.

(** *** A failed leave request *)

(** C7, as stated, fails: the exception raised by the first guild's
    [leave()] ends the pass, and the second guild, which meets the criteria
    as well, is never looked at. *)
Lemma sweep_not_isolated :
  _check_guilds manager_c7 world_c7
  = (Raise HTTPException,
     record_events [Get_bot_guilds; Call_whitelisted 11;
                    Get 11 Attr_member_count; Get 11 Attr_member_count;
                    Call_before_leave 11 false; Call_leave 11] world_c7)
  /\ fst (leave_criteria manager_c7 guild_b world_c7) = Ok true
  /\ ~ In (Call_whitelisted 12)
          (history (snd (_check_guilds manager_c7 world_c7))).
Proof.
  split; [ reflexivity | split; [ reflexivity | ] ].
  cbn. intros H. repeat (destruct H as [H|H]; [ discriminate H | ]). exact H.
Qed.

(** C7, amended: there is no handler around the loop body.  When the guilds
    before [guild] have been processed without an exception, [guild] meets
    the criteria and its [leave()] raises, the pass ends with that exception
    right after the request: [after_leave] is not called for [guild] and
    none of the guilds after it is evaluated. *)
Theorem sweep_stops_at_failed_leave
    (self : DefaultManager) (done todo : list Guild) (guild : Guild)
    (w w1 w2 : World) :
  bot_guilds w = done ++ guild :: todo ->
  for_each (check_guild self) done (record_events [Get_bot_guilds] w) = (Ok tt, w1) ->
  leave_criteria self guild w1 = (Ok true, w2) ->
  leave_raises w (id guild) = true ->
  _check_guilds self w
  = (Raise HTTPException,
     record_events [Call_before_leave (id guild) false; Call_leave (id guild)] w2).
Proof.
  intros Hgs Hdone Hgo Hfail.
  destruct (blind_frame _ _ _ _
              (blind_for_each _ done (blind_check_guild self)) Hdone) as (es1 & ->).
  destruct (blind_frame _ _ _ _ (blind_leave_criteria self guild) Hgo) as (es2 & ->).
  unfold _check_guilds, get_bot_guilds. unfold bind at 1. rewrite Hgs.
  rewrite for_each_app. unfold bind at 1. rewrite Hdone.
  cbn [for_each]. unfold bind at 1. unfold check_guild at 1.
  unfold bind at 1. rewrite Hgo.
  unfold before_leave, leave, emit, bind.
  autorewrite with world. rewrite Hfail.
  autorewrite with world. do 2 f_equal.
  now rewrite <- !app_assoc.
Qed.

Lemma sweep_stops_at_failed_leave_witness :
  _check_guilds manager_c7 world_c7
  = (Raise HTTPException,
     record_events [Call_before_leave 11 false; Call_leave 11]
       (snd (leave_criteria manager_c7 guild_a
               (record_events [Get_bot_guilds] world_c7)))).
Proof.
  apply (sweep_stops_at_failed_leave manager_c7 [] [guild_b] guild_a world_c7
           (record_events [Get_bot_guilds] world_c7)).
  - reflexivity.
  - reflexivity.
  - reflexivity.
  - reflexivity.
Defined.

(** ** The quotient of two ints *)

Section Quotient.

Local Abbreviation digits := Zdigits2.
Local Abbreviation fexp64 := (fexp prec emax).

Lemma digits2_pos_size (p : positive) : digits2_pos p = Pos.size p.
Proof. induction p; cbn; congruence. Qed.

Lemma digits_log2 (m : Z) : 0 < m -> digits m = Z.log2 m + 1.
Proof.
  destruct m as [|p|p]; try lia. intros _. cbn [Zdigits2].
  rewrite digits2_pos_size. destruct p; cbn; lia.
Qed.

Lemma digits_nonneg (m : Z) : 0 <= digits m.
Proof. destruct m; cbn; lia. Qed.

Lemma digits_le_log2 (m : Z) : 0 <= m -> digits m <= Z.log2 m + 1.
Proof.
  intros Hm. destruct (Z.eq_dec m 0) as [->|Hnz].
  - cbn. lia.
  - rewrite digits_log2; lia.
Qed.

Lemma digits_mono (x y : Z) : 0 <= x <= y -> digits x <= digits y.
Proof.
  intros [Hx Hxy]. destruct (Z.eq_dec x 0) as [->|Hnz].
  - apply digits_nonneg.
  - rewrite !digits_log2 by lia.
    pose proof (Z.log2_le_mono x y Hxy). lia.
Qed.

Lemma digits_succ (x : Z) : 0 <= x -> digits (x + 1) <= digits x + 1.
Proof.
  intros Hx. destruct (Z.eq_dec x 0) as [->|Hnz].
  - cbn. lia.
  - rewrite !digits_log2 by lia.
    pose proof (Z.log2_succ_le x). unfold Z.succ in *. lia.
Qed.

Lemma digits_shiftl (x n : Z) : 0 < x -> 0 <= n -> digits (Z.shiftl x n) = digits x + n.
Proof.
  intros Hx Hn.
  assert (0 < Z.shiftl x n).
  { rewrite Z.shiftl_mul_pow2 by lia.
    apply Z.mul_pos_pos; [ lia | apply Z.pow_pos_nonneg; lia ]. }
  rewrite !digits_log2 by lia. rewrite Z.log2_shiftl; lia.
Qed.

Lemma digits_shiftr (x n : Z) :
  0 <= x -> 0 < n -> digits (Z.shiftr x n) <= Z.max 0 (digits x - n).
Proof.
  intros Hx Hn. destruct (Z.eq_dec x 0) as [->|Hnz].
  - rewrite Z.shiftr_0_l. cbn. lia.
  - destruct (Z_lt_le_dec (Z.log2 x) n) as [Hlt|Hge].
    + rewrite Z.shiftr_eq_0 by lia. cbn. lia.
    + assert (0 <= Z.shiftr x n) by (apply Z.shiftr_nonneg; lia).
      pose proof (digits_le_log2 (Z.shiftr x n) H).
      rewrite Z.log2_shiftr in H0 by lia.
      rewrite (digits_log2 x) by lia. lia.
Qed.

Lemma shr_m_shr_1 (mrs : shr_record) :
  0 <= shr_m mrs -> shr_m (shr_1 mrs) = Z.div2 (shr_m mrs).
Proof.
  destruct mrs as [m r s]. cbn [shr_m]. intros Hm.
  destruct m as [|[p|p|]|p]; try lia; reflexivity.
Qed.

Lemma iter_pos_iter {A} (f : A -> A) (p : positive) (x : A) :
  iter_pos f p x = Pos.iter f x p.
Proof.
  revert x. induction p as [p IH|p IH|]; intros x; cbn [iter_pos Pos.iter].
  - rewrite !IH. now rewrite !Pos.iter_swap.
  - now rewrite !IH.
  - reflexivity.
Qed.

Lemma shr_m_iter (p : positive) (mrs : shr_record) :
  0 <= shr_m mrs ->
  shr_m (iter_pos shr_1 p mrs) = Z.shiftr (shr_m mrs) (Zpos p).
Proof.
  intros Hm. rewrite iter_pos_iter.
  change (Z.shiftr (shr_m mrs) (Z.pos p)) with (Pos.iter Z.div2 (shr_m mrs) p).
  induction p as [|p IH] using Pos.peano_ind.
  - cbn [Pos.iter]. now apply shr_m_shr_1.
  - rewrite !Pos.iter_succ. rewrite shr_m_shr_1.
    + now rewrite IH.
    + rewrite IH.
      change (Pos.iter Z.div2 (shr_m mrs) p) with (Z.shiftr (shr_m mrs) (Z.pos p)).
      apply Z.shiftr_nonneg. exact Hm.
Qed.

Lemma shr_m_of_loc (m : Z) (l : location) : shr_m (shr_record_of_loc m l) = m.
Proof. destruct l as [|[]]; reflexivity. Qed.

(** One normalisation step: the mantissa stays non-negative, the exponent
    is the old one or the canonical one, and the magnitude does not grow. *)
Lemma shr_fexp_bounds (m e : Z) (l : location) :
  0 <= m ->
  0 <= shr_m (fst (shr_fexp prec emax m e l))
  /\ snd (shr_fexp prec emax m e l) <= Z.max e (fexp64 (digits m + e))
  /\ digits (shr_m (fst (shr_fexp prec emax m e l))) + snd (shr_fexp prec emax m e l)
     <= Z.max (digits m + e) (fexp64 (digits m + e)).
Proof.
  intros Hm. unfold shr_fexp, shr.
  destruct (fexp64 (digits m + e) - e) as [|p|p] eqn:E; cbn [fst snd];
    rewrite ?shr_m_of_loc; try lia.
  rewrite shr_m_iter by (rewrite shr_m_of_loc; exact Hm).
  rewrite shr_m_of_loc.
  pose proof (digits_shiftr m (Z.pos p) Hm (Pos2Z.is_pos p)).
  assert (0 <= Z.shiftr m (Z.pos p)) by (apply Z.shiftr_nonneg; exact Hm).
  lia.
Qed.

Lemma round_nearest_even_bounds (m : Z) (l : location) :
  m <= round_nearest_even m l <= m + 1.
Proof.
  destruct l as [|[]]; cbn [round_nearest_even]; try lia.
  destruct (Z.even m); lia.
Qed.

Lemma fexp64_le (x : Z) : x <= 1024 -> fexp64 x <= 971.
Proof. unfold fexp, emin, prec, emax. lia. Qed.

(** Rounding a mantissa and exponent of moderate magnitude never
    overflows. *)
Lemma binary_round_aux_finite (s s' : bool) (m e : Z) (l : location) :
  0 <= m -> e <= 971 -> digits m + e <= 1000 ->
  binary_round_aux prec emax s m e l <> S754_infinity s'.
Proof.
  intros Hm He Hd. unfold binary_round_aux.
  destruct (shr_fexp_bounds m e l Hm) as (H1 & H2 & H3).
  destruct (shr_fexp prec emax m e l) as [mrs1 e1]. cbn [fst snd] in *.
  pose proof (fexp64_le (digits m + e)) as Hf.
  set (m1 := round_nearest_even (shr_m mrs1) (loc_of_shr_record mrs1)).
  pose proof (round_nearest_even_bounds (shr_m mrs1) (loc_of_shr_record mrs1)) as Hr.
  fold m1 in Hr.
  assert (Hm1 : 0 <= m1) by lia.
  assert (Hd1 : digits m1 <= digits (shr_m mrs1) + 1).
  { pose proof (digits_mono m1 (shr_m mrs1 + 1)).
    pose proof (digits_succ (shr_m mrs1)). lia. }
  destruct (shr_fexp_bounds m1 e1 loc_Exact Hm1) as (H4 & H5 & H6).
  destruct (shr_fexp prec emax m1 e1 loc_Exact) as [mrs2 e2]. cbn [fst snd] in *.
  pose proof (fexp64_le (digits m1 + e1)) as Hf1.
  destruct (shr_m mrs2); try discriminate.
  replace (e2 <=? emax - prec) with true; [ discriminate | ].
  symmetry. apply Z.leb_le. unfold emax, prec. lia.
Qed.

(** The long division at the heart of [SFdiv], on two ints. *)
Lemma SFdiv_core_bounds (pa pb : positive) :
  let '(q, e, _) := SFdiv_core_binary prec emax (Zpos pa) 0 (Zpos pb) 0 in
  0 <= q /\ e <= 0 /\ digits q + e <= digits (Zpos pa).
Proof.
  unfold SFdiv_core_binary.
  set (e' := Z.min _ _).
  assert (He' : e' <= 0) by (subst e'; lia).
  set (m' := match 0 - 0 - e' with Z0 => Zpos pa | Zpos _ => _ | Zneg _ => _ end).
  assert (Hm' : 0 < m' /\ digits m' + e' = digits (Zpos pa)).
  { subst m'. destruct (0 - 0 - e') as [|s|s] eqn:Es; try lia.
    change (IntDef.Z.shiftl (Z.pos pa) (Z.pos s))
      with (Z.shiftl (Z.pos pa) (Z.pos s)).
    rewrite digits_shiftl by lia. split; [ | lia ].
    rewrite Z.shiftl_mul_pow2 by lia.
    apply Z.mul_pos_pos; [ lia | apply Z.pow_pos_nonneg; lia ]. }
  destruct Hm' as [Hpos Hdig].
  pose proof (Z_div_mod m' (Zpos pb) eq_refl) as Hdm.
  destruct (Z.div_eucl m' (Zpos pb)) as [q r].
  destruct Hdm as [Hq Hr].
  assert (Hq0 : 0 <= q) by nia.
  assert (Hqm : q <= m') by nia.
  pose proof (digits_mono q m'). lia.
Qed.

(** For a dividend that fits in a machine word and a non-zero divisor,
    [a / b] is defined. *)
Lemma int_truediv_defined (a b : Z) :
  0 <= a <= sys_maxsize -> b <> 0 -> exists q, int_truediv a b = Ok q.
Proof.
  intros Ha Hb. unfold int_truediv.
  destruct (Z.eqb_spec b 0) as [|_]; [ contradiction | ].
  assert (Hfin : forall s, SFdiv prec emax (int_as_float a) (int_as_float b)
                           <> S754_infinity s).
  { intros s. destruct a as [|pa|pa]; [ | | lia ].
    - destruct b; cbn; discriminate.
    - assert (Hda : digits (Zpos pa) <= 63).
      { rewrite digits_log2 by lia.
        assert (Z.log2 (Zpos pa) < 63); [ | lia ].
        apply Z.log2_lt_pow2; unfold sys_maxsize in Ha; lia. }
      destruct b as [|pb|pb]; [ contradiction | | ]; cbn [int_as_float SFdiv];
        pose proof (SFdiv_core_bounds pa pb) as Hc;
        destruct (SFdiv_core_binary prec emax (Zpos pa) 0 (Zpos pb) 0)
          as [[q e] l];
        apply binary_round_aux_finite; lia. }
  destruct (SFdiv prec emax (int_as_float a) (int_as_float b)) as [s|s| |s m e];
    try (eexists; reflexivity).
  now destruct (Hfin s).
Qed.

End Quotient.

(** ** The verdict as a disjunction *)

Lemma leave_criteria_fst
    (self : DefaultManager) (guild : Guild) (w : World) :
  whitelisted self guild = false ->
  fst (leave_criteria self guild w)
  = if too_old self guild (clock w) || too_few self guild || too_many self guild
    then Ok true
    else match too_many_bots self guild with
         | Ok b => Ok (b || extra_criteria self guild)
         | Raise e => Raise e
         end.
Proof.
  intros Hwl. run. rewrite Hwl. unfold too_old, too_few, too_many, too_many_bots.
  destruct (min_guild_age self) as [age|]; merge;
    [ destruct (age <? clock w - created_at guild); [ reflexivity | ] | ];
    (destruct (member_count guild) as [n|];
     [ destruct (min_members self) as [lo|];
       [ destruct (n <? lo); [ reflexivity | ] | ];
       (destruct (max_members self) as [hi|];
        [ destruct (hi <? n); [ reflexivity | ] | ];
        (destruct (max_bot_ratio self) as [ratio|]; [ | reflexivity ];
         destruct (int_truediv (sum_bots (members guild)) n) as [q|e];
         [ destruct (float_gt q ratio); reflexivity | reflexivity ]))
     | destruct (min_members self), (max_members self), (max_bot_ratio self);
       reflexivity ]).
Qed.


(** X1: for a guild that is not whitelisted, [leave_criteria] answers the
    disjunction of its limits and of [extra_criteria]: [True] as soon as the
    age, minimum or maximum test rejects (the ratio is then not computed),
    otherwise the ratio test or else [extra_criteria]; an exception of the
    ratio's division comes out only when none of the earlier tests rejects. *)
Theorem leave_criteria_is_disjunction
    (self : DefaultManager) (guild : Guild) (w : World) :
  whitelisted self guild = false ->
  fst (leave_criteria self guild w)
  = if too_old self guild (clock w) || too_few self guild || too_many self guild
    then Ok true
    else match too_many_bots self guild with
         | Ok b => Ok (b || extra_criteria self guild)
         | Raise e => Raise e
         end.
Proof.
  intros Hwl. run. rewrite Hwl. unfold too_old, too_few, too_many, too_many_bots.
  destruct (min_guild_age self) as [age|]; merge;
    [ destruct (age <? clock w - created_at guild); [ reflexivity | ] | ];
    (destruct (member_count guild) as [n|];
     [ destruct (min_members self) as [lo|];
       [ destruct (n <? lo); [ reflexivity | ] | ];
       (destruct (max_members self) as [hi|];
        [ destruct (hi <? n); [ reflexivity | ] | ];
        (destruct (max_bot_ratio self) as [ratio|]; [ | reflexivity ];
         destruct (int_truediv (sum_bots (members guild)) n) as [q|e];
         [ destruct (float_gt q ratio); reflexivity | reflexivity ]))
     | destruct (min_members self), (max_members self), (max_bot_ratio self);
       reflexivity ]).
Qed.

Lemma leave_criteria_is_disjunction_witness :
  fst (leave_criteria manager_c9 guild_b world_c9) = Ok false
  /\ fst (leave_criteria manager_c9 guild_a world_c9) = Ok true.
Proof.
  split.
  - rewrite (leave_criteria_is_disjunction manager_c9 guild_b world_c9).
    + reflexivity.
    + reflexivity.
  - rewrite (leave_criteria_is_disjunction manager_c9 guild_a world_c9).
    + reflexivity.
    + reflexivity.
Defined.

(** ** Totality *)

Lemma sum_bots_acc (ms : list Member) (acc : Z) :
  acc <= fold_left (fun a m => a + (if bot m then 1 else 0)) ms acc
      <= acc + Z.of_nat (List.length ms).
Proof.
  revert acc. induction ms as [|m ms IH]; intros acc; cbn [fold_left List.length].
  - lia.
  - specialize (IH (acc + (if bot m then 1 else 0))).
    destruct (bot m); lia.
Qed.

Lemma sum_bots_bounds (ms : list Member) :
  0 <= sum_bots ms <= Z.of_nat (List.length ms).
Proof. apply (sum_bots_acc ms 0). Qed.

(** C3, as stated, fails: with [max_bot_ratio] set, a guild whose
    [member_count] is 0 makes line 197 divide by zero. *)
Lemma leave_criteria_raises_on_zero_count :
  leave_criteria manager_c8 guild_zero world_c3
  = (Raise ZeroDivisionError,
     record_events [Call_whitelisted 3; Get 3 Attr_member_count;
                    Get 3 Attr_members; Get 3 Attr_member_count] world_c3).
Proof. reflexivity. Qed.

(** C3, amended: [leave_criteria] completes and returns a boolean without
    raising for every configuration and every guild, a guild whose
    [member_count] is [None] or 0 included, with one exception: the guild
    is not whitelisted, none of the age, [min_members] and [max_members]
    tests rejects it, [max_bot_ratio] is set and [member_count] is 0.  So
    the division of line 197 is never reached with an unknown count, and
    outside that one case it is defined.  ([members] is a Python list, so
    its length is at most [sys.maxsize].) *)
Theorem leave_criteria_total
    (self : DefaultManager) (guild : Guild) (w : World) :
  Z.of_nat (List.length (members guild)) <= sys_maxsize ->
  whitelisted self guild = true
  \/ too_old self guild (clock w) = true
  \/ too_few self guild = true
  \/ too_many self guild = true
  \/ max_bot_ratio self = None
  \/ member_count guild <> Some 0 ->
  exists (verdict : bool) (w' : World),
    leave_criteria self guild w = (Ok verdict, w').
Proof.
  intros Hlen Hcase.
  assert (Hfst : exists verdict, fst (leave_criteria self guild w) = Ok verdict).
  { destruct (whitelisted self guild) eqn:Hwl.
    - exists false. run. now rewrite Hwl.
    - rewrite leave_criteria_fst by exact Hwl.
      destruct (too_old self guild (clock w) || too_few self guild
                || too_many self guild) eqn:Hearly; [ now exists true | ].
      apply orb_false_elim in Hearly. destruct Hearly as [Hearly Hmany].
      apply orb_false_elim in Hearly. destruct Hearly as [Hold Hfew].
      assert (Hdiv : exists b, too_many_bots self guild = Ok b).
      { unfold too_many_bots.
        destruct (max_bot_ratio self) as [ratio|]; [ | now exists false ].
        destruct (member_count guild) as [n|]; [ | now exists false ].
        destruct (int_truediv_defined (sum_bots (members guild)) n) as [q Hq].
        - pose proof (sum_bots_bounds (members guild)). lia.
        - destruct Hcase as [H|[H|[H|[H|[H|H]]]]]; congruence.
        - rewrite Hq. now eexists. }
      destruct Hdiv as [b Hb]. rewrite Hb. now eexists. }
  destruct Hfst as [verdict Hv].
  destruct (leave_criteria self guild w) as [r w']. cbn [fst] in Hv. subst r.
  now exists verdict, w'.
Qed.

Lemma leave_criteria_total_witness :
  (exists (verdict : bool) (w' : World),
      leave_criteria DefaultManager_init guild_zero world_c3 = (Ok verdict, w'))
  /\ (exists (verdict : bool) (w' : World),
      leave_criteria manager_c5 guild_zero world_c3 = (Ok verdict, w'))
  /\ (exists (verdict : bool) (w' : World),
      leave_criteria manager_c8 guild_6_bots world_c8 = (Ok verdict, w')).
Proof.
  split; [ | split ].
  - apply (leave_criteria_total DefaultManager_init guild_zero world_c3).
    + vm_compute. discriminate.
    + right. right. right. right. left. reflexivity.
  - apply (leave_criteria_total manager_c5 guild_zero world_c3).
    + vm_compute. discriminate.
    + right. right. left. reflexivity.
  - apply (leave_criteria_total manager_c8 guild_6_bots world_c8).
    + vm_compute. discriminate.
    + right. right. right. right. right. discriminate.
Defined.

(** ** What a run may emit *)

Section Emits.

Context {A B : Type} (P : event -> Prop).

Lemma emits_ret (a : A) : emits P (ret a).
Proof.
  intros w. exists (Ok a), []. now rewrite record_events_nil.
Qed.

Lemma emits_raise (e : exn) : emits P (@raise A e).
Proof.
  intros w. exists (Raise e), []. now rewrite record_events_nil.
Qed.

Lemma emits_lift (r : result A) : emits P (lift r).
Proof.
  intros w. exists r, []. now rewrite record_events_nil.
Qed.

Lemma emits_bind (m : M A) (k : A -> M B) :
  emits P m -> (forall a, emits P (k a)) -> emits P (bind m k).
Proof.
  intros Hm Hk w. destruct (Hm w) as (r & es & E & HP).
  unfold bind. rewrite E. destruct r as [a|e].
  - destruct (Hk a (record_events es w)) as (r' & es' & E' & HP').
    exists r', (es ++ es'). rewrite E', record_events_app.
    split; [ reflexivity | now apply Forall_app ].
  - now exists (Raise e), es.
Qed.

(** Reading an attribute hands the attribute's value to what follows. *)
Lemma emits_get_bind (a : attr) (field : Guild -> A) (guild : Guild)
    (k : A -> M B) :
  P (Get (id guild) a) -> emits P (k (field guild)) ->
  emits P (bind (get a field guild) k).
Proof.
  intros Pe Hk w. destruct (Hk (record_events [Get (id guild) a] w))
    as (r & es & E & HP).
  exists r, (Get (id guild) a :: es).
  unfold get, emit, ret, bind. rewrite E, record_events_app.
  split; [ reflexivity | now constructor ].
Qed.

End Emits.

Lemma emits_weaken {A} (P Q : event -> Prop) (m : M A) :
  (forall e, P e -> Q e) -> emits P m -> emits Q m.
Proof.
  intros HPQ Hm w. destruct (Hm w) as (r & es & E & HP).
  exists r, es. split; [ exact E | ].
  eapply Forall_impl; [ exact HPQ | exact HP ].
Qed.

Lemma emits_emit (P : event -> Prop) (e : event) : P e -> emits P (emit e).
Proof. intros Pe w. exists (Ok tt), [e]. now repeat constructor. Qed.

Lemma emits_utcnow (P : event -> Prop) : P Call_utcnow -> emits P utcnow.
Proof. intros Pe w. exists (Ok (clock w)), [Call_utcnow]. now repeat constructor. Qed.

Lemma emits_leave (P : event -> Prop) (guild : Guild) :
  P (Call_leave (id guild)) -> emits P (leave guild).
Proof.
  intros Pe w. unfold leave. destruct (leave_raises w (id guild)).
  - exists (Raise HTTPException), [Call_leave (id guild)]. now repeat constructor.
  - exists (Ok tt), [Call_leave (id guild)]. now repeat constructor.
Qed.

Lemma emits_for_each {A} (P : event -> Prop) (body : A -> M unit) (l : list A) :
  (forall x, In x l -> emits P (body x)) -> emits P (for_each body l).
Proof.
  induction l as [|x l IH]; intros Hbody; cbn [for_each].
  - apply emits_ret.
  - apply emits_bind.
    + apply Hbody. now left.
    + intros _. apply IH. intros y Hy. apply Hbody. now right.
Qed.

(** Walk through a coroutine, leaving the conditions on single events. *)
Ltac emits :=
  repeat first
    [ apply emits_ret
    | apply emits_raise
    | apply emits_lift
    | apply emits_emit
    | apply emits_utcnow
    | apply emits_leave
    | apply emits_get_bind
    | apply emits_bind; [ | intros ? ]
    | progress cbn beta
    | match goal with
      | |- emits _ (match ?x with _ => _ end) => destruct x eqn:?
      end ].

Lemma emits_min_guild_age_test (self : DefaultManager) (guild : Guild) :
  emits (criterion_event (id guild)) (min_guild_age_test self guild).
Proof. unfold min_guild_age_test. emits; cbn; auto. Qed.

Lemma emits_min_members_test (self : DefaultManager) (guild : Guild) :
  emits (criterion_event (id guild)) (min_members_test self guild).
Proof. unfold min_members_test, log_warning, as_int. emits; cbn; auto. Qed.

Lemma emits_max_members_test (self : DefaultManager) (guild : Guild) :
  emits (criterion_event (id guild)) (max_members_test self guild).
Proof. unfold max_members_test, log_warning, as_int. emits; cbn; auto. Qed.

Lemma emits_max_bot_ratio_test (self : DefaultManager) (guild : Guild) :
  emits (criterion_event (id guild)) (max_bot_ratio_test self guild).
Proof. unfold max_bot_ratio_test, log_warning, as_int. emits; cbn; auto. Qed.

(** ** The shape of an evaluation *)

Lemma criteria_trace_app (g : Z) (es1 es2 : list event) :
  Forall (criterion_event g) es1 -> criteria_trace g es2 ->
  criteria_trace g (es1 ++ es2).
Proof.
  intros H1 [H2|(es' & -> & H2)].
  - left. now apply Forall_app.
  - right. exists (es1 ++ es'). rewrite app_assoc.
    split; [ reflexivity | now apply Forall_app ].
Qed.

Lemma shaped_bind (g : Z) {A B} (m : M A) (k : A -> M B) :
  emits (criterion_event g) m -> (forall a, shaped g (k a)) -> shaped g (bind m k).
Proof.
  intros Hm Hk w. destruct (Hm w) as (r & es & E & HP).
  unfold bind. rewrite E. destruct r as [a|e].
  - destruct (Hk a (record_events es w)) as (r' & es' & E' & HP').
    exists r', (es ++ es'). rewrite E', record_events_app.
    split; [ reflexivity | now apply criteria_trace_app ].
  - exists (Raise e), es. split; [ reflexivity | now left ].
Qed.

Lemma shaped_ret (g : Z) {A} (a : A) : shaped g (ret a).
Proof.
  intros w. exists (Ok a), []. rewrite record_events_nil.
  split; [ reflexivity | left; constructor ].
Qed.

Lemma call_whitelisted_run (self : DefaultManager) (guild : Guild) (w : World) :
  call_whitelisted self guild w
  = (Ok (whitelisted self guild), record_events [Call_whitelisted (id guild)] w).
Proof. reflexivity. Qed.

Lemma shaped_after_whitelisted (self : DefaultManager) (guild : Guild) :
  forall w, exists (r : result bool) (es : list event),
    leave_criteria self guild w
    = (r, record_events (Call_whitelisted (id guild) :: es) w)
    /\ criteria_trace (id guild) es.
Proof.
  assert (Hrest : shaped (id guild) (
    c1 <- min_guild_age_test self guild ;;
    if c1 then ret true else
    c2 <- min_members_test self guild ;;
    if c2 then ret true else
    c3 <- max_members_test self guild ;;
    if c3 then ret true else
    c4 <- max_bot_ratio_test self guild ;;
    if c4 then ret true else
    call_extra_criteria self guild)).
  { apply shaped_bind; [ apply emits_min_guild_age_test | intros [|] ];
      [ apply shaped_ret | ].
    apply shaped_bind; [ apply emits_min_members_test | intros [|] ];
      [ apply shaped_ret | ].
    apply shaped_bind; [ apply emits_max_members_test | intros [|] ];
      [ apply shaped_ret | ].
    apply shaped_bind; [ apply emits_max_bot_ratio_test | intros [|] ];
      [ apply shaped_ret | ].
    intros w. exists (Ok (extra_criteria self guild)), [Call_extra_criteria (id guild)].
    split; [ reflexivity | right; exists []; split; [ reflexivity | constructor ] ]. }
  intros w. destruct (whitelisted self guild) eqn:Hwl.
  - exists (Ok false), []. split; [ | left; constructor ].
    run. now rewrite Hwl.
  - destruct (Hrest (record_events [Call_whitelisted (id guild)] w))
      as (r & es & E & Hes).
    exists r, es. split; [ | exact Hes ].
    unfold leave_criteria. unfold bind at 1.
    rewrite call_whitelisted_run, Hwl, E. now rewrite record_events_app.
Qed.

Lemma criterion_calls (g : Z) (es : list event) :
  Forall (criterion_event g) es ->
  whitelisted_calls es = [] /\ leave_decisions es = []
  /\ leave_calls es = [] /\ after_leave_calls es = [].
Proof.
  induction 1 as [|e es He _ (H1 & H2 & H3 & H4)]; [ now repeat split | ].
  unfold whitelisted_calls, leave_decisions, leave_calls, after_leave_calls in *.
  cbn [flat_map]. rewrite H1, H2, H3, H4.
  destruct e; cbn in He; try contradiction; now repeat split.
Qed.

Lemma evaluation_calls (g : Z) (es : list event) :
  criteria_trace g es ->
  whitelisted_calls (Call_whitelisted g :: es) = [g]
  /\ leave_decisions (Call_whitelisted g :: es) = []
  /\ leave_calls (Call_whitelisted g :: es) = []
  /\ after_leave_calls (Call_whitelisted g :: es) = [].
Proof.
  intros [Hes|(es' & -> & Hes)];
    destruct (criterion_calls g _ Hes) as (H1 & H2 & H3 & H4);
    unfold whitelisted_calls, leave_decisions, leave_calls, after_leave_calls in *;
    cbn [flat_map app]; rewrite ?flat_map_app, ?H1, ?H2, ?H3, ?H4;
    now repeat split.
Qed.

(** X2: every evaluation of [leave_criteria] has the same shape: it calls
    [whitelisted] exactly once, first; then it only reads the clock and
    attributes of that guild or logs warnings about it; [extra_criteria] is
    called at most once and is then the last thing done.  No guild is left
    and no lifecycle hook is called. *)
Theorem leave_criteria_shape (self : DefaultManager) (guild : Guild) (w : World) :
  exists (r : result bool) (es : list event),
    leave_criteria self guild w
    = (r, record_events (Call_whitelisted (id guild) :: es) w)
    /\ criteria_trace (id guild) es
    /\ whitelisted_calls (Call_whitelisted (id guild) :: es) = [id guild]
    /\ leave_calls (Call_whitelisted (id guild) :: es) = []
    /\ leave_decisions (Call_whitelisted (id guild) :: es) = []
    /\ after_leave_calls (Call_whitelisted (id guild) :: es) = [].
Proof.
  destruct (shaped_after_whitelisted self guild w) as (r & es & E & Hes).
  destruct (evaluation_calls _ _ Hes) as (C1 & C2 & C3 & C4).
  exists r, es. now repeat split.
Qed.

(** ** Warnings *)

Ltac count_warnings :=
  cbn [fst snd]; merge; rewrite new_events_record_events; reflexivity.

(** X3: [leave_criteria] logs a warning only about an unknown
    [member_count]: none when the count is known, or when the whitelist or
    the age test has already decided; otherwise exactly one for each of
    [min_members], [max_members] and [max_bot_ratio] that is configured. *)
Theorem warnings_count (self : DefaultManager) (guild : Guild) (w : World) :
  List.length (filter is_warning
                 (new_events w (snd (leave_criteria self guild w))))
  = if whitelisted self guild || too_old self guild (clock w) then 0%nat
    else match member_count guild with
         | Some _ => 0%nat
         | None => member_criteria_configured self
         end.
Proof.
  unfold too_old, member_criteria_configured. run.
  destruct (whitelisted self guild);
    [ count_warnings | ].
  destruct (min_guild_age self) as [age|]; merge;
    [ destruct (age <? clock w - created_at guild);
      [ count_warnings | ] | ];
    (destruct (member_count guild) as [n|];
     [ destruct (min_members self) as [lo|];
       [ destruct (n <? lo); [ count_warnings | ] | ];
       (destruct (max_members self) as [hi|];
        [ destruct (hi <? n); [ count_warnings | ] | ];
        (destruct (max_bot_ratio self) as [ratio|];
         [ destruct (int_truediv (sum_bots (members guild)) n) as [q|e];
           [ destruct (float_gt q ratio) | ] | ];
         count_warnings))
     | destruct (min_members self), (max_members self), (max_bot_ratio self);
       count_warnings ]).
Qed.

(** ** The bot ratio without bots *)

Lemma int_truediv_zero (n : Z) :
  n <> 0 -> int_truediv 0 n = Ok (S754_zero (n <? 0)).
Proof. destruct n; [ contradiction | reflexivity | reflexivity ]. Qed.

Lemma float_gt_zero (s : bool) (ratio : float) :
  float_gt (S754_zero s) ratio = float_is_negative ratio.
Proof. destruct ratio as [[|]|[|]| |[|] m e]; reflexivity. Qed.

(** X4: when no listed member is a bot (in particular when the member list
    is empty for want of the members intent) and the count is known and not
    zero, the ratio test of lines 190-198 rejects exactly when
    [max_bot_ratio] is below zero: with any ratio from 0 up it never
    fires. *)
Theorem bot_ratio_without_bots
    (self : DefaultManager) (guild : Guild) (w : World) (ratio : float) (n : Z) :
  max_bot_ratio self = Some ratio ->
  member_count guild = Some n ->
  n <> 0 ->
  sum_bots (members guild) = 0 ->
  fst (max_bot_ratio_test self guild w) = Ok (float_is_negative ratio).
Proof.
  intros Hr Hmc Hn Hbots. run. rewrite Hr, Hmc, Hbots.
  rewrite (int_truediv_zero n Hn). cbn [fst]. now rewrite float_gt_zero.
Qed.

Lemma bot_ratio_without_bots_witness :
  fst (max_bot_ratio_test manager_c9 guild_b world_c9) = Ok false.
Proof.
  apply (bot_ratio_without_bots manager_c9 guild_b world_c9 float_0_5 50).
  - reflexivity.
  - reflexivity.
  - lia.
  - reflexivity.
Defined.

(** ** The join handler below the limit *)

(** X5: while [len(bot.guilds)] is below [max_guilds], the join handler
    does what [leave_criteria] answers for the new guild: on [True],
    [before_leave], [guild.leave()] and (unless the request raised)
    [after_leave], all with [new=True]; on [False] nothing more; an
    exception of the evaluation leaves the handler as it is. *)
Theorem join_below_limit (self : DefaultManager) (guild : Guild) (w : World) :
  Z.of_nat (List.length (bot_guilds w)) < max_guilds self ->
  _on_guild_join self guild w
  = match leave_criteria self guild (record_events [Get_bot_guilds] w) with
    | (Ok true, w1) =>
        if leave_raises w (id guild)
        then (Raise HTTPException,
              record_events [Call_before_leave (id guild) true;
                             Call_leave (id guild)] w1)
        else (Ok tt,
              record_events [Call_before_leave (id guild) true;
                             Call_leave (id guild);
                             Call_after_leave (id guild) true] w1)
    | (Ok false, w1) => (Ok tt, w1)
    | (Raise e, w1) => (Raise e, w1)
    end.
Proof.
  intros Hroom. apply Z.leb_gt in Hroom.
  unfold _on_guild_join, get_bot_guilds. unfold bind at 1. rewrite Hroom.
  unfold bind at 1.
  destruct (leave_criteria self guild (record_events [Get_bot_guilds] w))
    as [[[|]|e] w1] eqn:E; try reflexivity.
  destruct (blind_frame _ _ _ _ (blind_leave_criteria self guild) E) as (es & ->).
  unfold before_leave, after_leave, leave, emit, bind.
  autorewrite with world.
  destruct (leave_raises w (id guild)); autorewrite with world; do 2 f_equal;
    now rewrite <- !app_assoc.
Qed.

Lemma join_below_limit_witness :
  _on_guild_join manager_c9 guild_a world_c9
  = (Ok tt,
     record_events [Get_bot_guilds; Call_whitelisted 11;
                    Get 11 Attr_member_count; Get 11 Attr_member_count;
                    Call_before_leave 11 true; Call_leave 11;
                    Call_after_leave 11 true] world_c9).
Proof.
  rewrite (join_below_limit manager_c9 guild_a world_c9).
  - reflexivity.
  - simpl. lia.
Defined.

(** ** What the handlers touch *)

Lemma emits_leave_criteria (self : DefaultManager) (guild : Guild) :
  emits (evaluation_event (id guild)) (leave_criteria self guild).
Proof.
  intros w. destruct (shaped_after_whitelisted self guild w) as (r & es & E & Hes).
  exists r, (Call_whitelisted (id guild) :: es). split; [ exact E | ].
  constructor; [ now left | ].
  destruct Hes as [Hes|(es' & -> & Hes)].
  - eapply Forall_impl; [ | exact Hes ]. intros e He. now right; right.
  - apply Forall_app. split.
    + eapply Forall_impl; [ | exact Hes ]. intros e He. now right; right.
    + constructor; [ right; now left | constructor ].
Qed.

Lemma evaluation_event_about (g : Z) (e : event) :
  evaluation_event g e -> about_new_guild g e /\ forall g', e <> Call_on_guild_limit_reached g'.
Proof.
  intros [->|[->|He]].
  - repeat split; cbn; congruence.
  - repeat split; cbn; congruence.
  - destruct e; cbn in He; try contradiction; subst;
      repeat split; cbn; congruence.
Qed.

(** X6: whatever the configuration, the join handler deals with the guild
    that has just been joined and with no other: every hook it calls, every
    attribute it reads and the one leave request it may send are about that
    guild, [before_leave] and [after_leave] get [new=True], and
    [before_leave] is not called in a run that called
    [on_guild_limit_reached]. *)
Theorem join_handler_scope (self : DefaultManager) (guild : Guild) (w : World) :
  exists (r : result unit) (es : list event),
    _on_guild_join self guild w = (r, record_events es w)
    /\ Forall (about_new_guild (id guild)) es
    /\ (In (Call_on_guild_limit_reached (id guild)) es ->
        forall new, ~ In (Call_before_leave (id guild) new) es).
Proof.
  destruct (max_guilds self <=? Z.of_nat (List.length (bot_guilds w))) eqn:Hcap.
  - run. rewrite Hcap. merge.
    destruct (leave_raises w (id guild)); merge;
      (eexists _, _; split; [ reflexivity | split ];
       [ repeat constructor; cbn; congruence
       | intros _ new Hin; cbn in Hin;
         repeat (destruct Hin as [Hin|Hin]; [ discriminate Hin | ]);
         exact Hin ]).
  - assert (Hrest : emits (fun e => about_new_guild (id guild) e
                                  /\ forall g', e <> Call_on_guild_limit_reached g')
                      (go <- leave_criteria self guild ;;
                       if go then
                         before_leave self guild true ;;
                         leave guild ;;
                         after_leave self guild true
                       else ret tt)).
    { apply emits_bind.
      - eapply emits_weaken; [ | apply emits_leave_criteria ].
        apply evaluation_event_about.
      - intros [|]; unfold before_leave, after_leave; emits;
          repeat split; cbn; congruence. }
    destruct (Hrest (record_events [Get_bot_guilds] w)) as (r & es & E & Hes).
    exists r, (Get_bot_guilds :: es).
    unfold _on_guild_join, get_bot_guilds. unfold bind at 1.
    rewrite Hcap, E, record_events_app. split; [ reflexivity | split ].
    + constructor; [ split; cbn; congruence | ].
      eapply Forall_impl; [ | exact Hes ]. now intros e [He _].
    + intros [Hin|Hin]; [ discriminate Hin | ].
      rewrite Forall_forall in Hes. destruct (Hes _ Hin) as [_ Hno].
      now destruct (Hno (id guild)).
Qed.

Lemma evaluation_event_sweep (gs : list Guild) (g : Z) (e : event) :
  In g (map id gs) -> evaluation_event g e -> sweep_event gs e.
Proof.
  intros Hg [->|[->|He]].
  - repeat split; cbn; congruence.
  - repeat split; cbn; congruence.
  - destruct e; cbn in He; try contradiction; subst;
      repeat split; cbn; congruence.
Qed.

Lemma emits_check_guild_in (self : DefaultManager) (gs : list Guild) (guild : Guild) :
  In guild gs -> emits (sweep_event gs) (check_guild self guild).
Proof.
  intros Hin. assert (Hid : In (id guild) (map id gs)) by now apply in_map.
  unfold check_guild. apply emits_bind.
  - eapply emits_weaken; [ | apply emits_leave_criteria ].
    intros e. now apply evaluation_event_sweep.
  - intros [|]; unfold before_leave, after_leave; emits;
      repeat split; cbn; congruence.
Qed.

(** X7: a pass of the sweep deals with the guilds of [bot.guilds] and with
    no other: every hook call, attribute read and leave request is about a
    guild of that list; [before_leave] and [after_leave] get [new=False];
    and [on_guild_limit_reached] is never called, the limit is not looked
    at again. *)
Theorem sweep_scope (self : DefaultManager) (w : World) :
  exists (r : result unit) (es : list event),
    _check_guilds self w = (r, record_events es w)
    /\ Forall (sweep_event (bot_guilds w)) es.
Proof.
  destruct (emits_for_each (sweep_event (bot_guilds w)) (check_guild self)
              (bot_guilds w) (emits_check_guild_in self (bot_guilds w))
              (record_events [Get_bot_guilds] w)) as (r & es & E & Hes).
  exists r, (Get_bot_guilds :: es).
  unfold _check_guilds, get_bot_guilds. unfold bind at 1.
  rewrite E, record_events_app. split; [ reflexivity | ].
  constructor; [ repeat split; cbn; congruence | exact Hes ].
Qed.

(** ** What a pass of the sweep does, guild by guild *)


(** One step of the loop, started anywhere on the same platform. *)
Lemma check_guild_summary (self : DefaultManager) (guild : Guild) (w w0 : World) :
  same_platform w w0 ->
  exists (r : result unit) (es : list event),
    check_guild self guild w0 = (r, record_events es w0)
    /\ whitelisted_calls es = [id guild]
    /\ (r = Ok tt <-> processed_cleanly self w guild)
    /\ (r = Ok tt ->
        let left := if verdict self w guild then [id guild] else [] in
        leave_decisions es = left /\ leave_calls es = left
        /\ after_leave_calls es = left)
    /\ (forall g', In g' (leave_calls es) ->
                   g' = id guild /\ verdict self w guild = true).
Proof.
  intros Hw.
  destruct (blind_leave_criteria self guild w w0 Hw) as (r0 & es0 & E & E0').
  destruct (shaped_after_whitelisted self guild w0) as (r1 & es1 & E1 & Hes1).
  assert (r1 = r0) by (rewrite E0' in E1; congruence). subst r1. clear E0'.
  assert (Hfst : fst (leave_criteria self guild w) = r0) by now rewrite E.
  destruct (evaluation_calls _ _ Hes1) as (C1 & C2 & C3 & C4).
  destruct Hw as (_ & _ & Hl). specialize (Hl (id guild)).
  unfold processed_cleanly, verdict. rewrite Hfst.
  unfold whitelisted_calls, leave_decisions, leave_calls, after_leave_calls in *.
  destruct r0 as [[|]|e]; unfold check_guild; unfold bind at 1; rewrite E1.
  - unfold before_leave, after_leave, leave, emit, bind.
    autorewrite with world. rewrite <- Hl.
    destruct (leave_raises w (id guild)); autorewrite with world;
      eexists _, _; (split; [ reflexivity | ]);
      rewrite !flat_map_app, ?C1, ?C2, ?C3, ?C4; cbn [flat_map app].
    + split; [ reflexivity | split; [ split | split ] ]; try discriminate.
      * intros [_ H]. now specialize (H eq_refl).
      * intros g' [<-|[]]. now split.
    + split; [ reflexivity | split; [ split | split ] ]; eauto.
      intros g' [<-|[]]. now split.
  - unfold ret. eexists _, _; (split; [ reflexivity | ]).
    rewrite ?C1, ?C2, ?C3, ?C4.
    split; [ reflexivity | split; [ split | split ] ]; eauto.
    + intros _. split; [ eauto | discriminate ].
    + intros g' [].
  - eexists _, _; (split; [ reflexivity | ]).
    rewrite ?C1, ?C2, ?C3, ?C4.
    split; [ reflexivity | split; [ split | split ] ]; try discriminate.
    + intros [[b Hb] _]. discriminate.
    + intros g' [].
Qed.

Lemma sweep_summary (self : DefaultManager) (w : World) (gs : list Guild) :
  forall w0, same_platform w w0 ->
  exists (r : result unit) (es : list event),
    for_each (check_guild self) gs w0 = (r, record_events es w0)
    /\ (exists k, whitelisted_calls es = firstn k (map id gs))
    /\ (r = Ok tt <-> Forall (processed_cleanly self w) gs)
    /\ (r = Ok tt ->
        let left := map id (filter (verdict self w) gs) in
        whitelisted_calls es = map id gs
        /\ leave_decisions es = left /\ leave_calls es = left
        /\ after_leave_calls es = left)
    /\ (forall g', In g' (leave_calls es) ->
                   exists guild, In guild gs /\ id guild = g'
                                 /\ verdict self w guild = true).
Proof.
  induction gs as [|g gs IH]; intros w0 Hw; cbn [for_each].
  - exists (Ok tt), []. rewrite record_events_nil.
    split; [ reflexivity | split; [ now exists 0%nat | split; [ | split ] ] ].
    + split; [ constructor | reflexivity ].
    + now repeat split.
    + intros g' [].
  - destruct (check_guild_summary self g w w0 Hw)
      as (r1 & es1 & E1 & W1 & P1 & D1 & L1).
    unfold bind. rewrite E1. destruct r1 as [[]|e].
    + destruct (IH (record_events es1 w0) (same_platform_record [] es1 w w0 Hw))
        as (r2 & es2 & E2 & (k & W2) & P2 & D2 & L2).
      exists r2, (es1 ++ es2). rewrite E2, record_events_app.
      unfold whitelisted_calls, leave_decisions, leave_calls, after_leave_calls in *.
      rewrite !flat_map_app, W1.
      split; [ reflexivity | split; [ | split; [ | split ] ] ].
      * exists (S k). cbn [map firstn app]. now rewrite W2.
      * rewrite P2. split.
        -- intros H. constructor; [ now apply P1 | exact H ].
        -- intros H. now inversion H.
      * intros Hr. destruct (D1 eq_refl) as (A1 & A2 & A3).
        destruct (D2 Hr) as (B0 & B1 & B2 & B3).
        rewrite A1, A2, A3, B0, B1, B2, B3. cbn [map filter app].
        destruct (verdict self w g); now repeat split.
      * intros g' Hin. apply in_app_or in Hin. destruct Hin as [Hin|Hin].
        -- destruct (L1 g' Hin) as [-> Hv]. exists g. split; [ now left | now split ].
        -- destruct (L2 g' Hin) as (guild & Hg & Hid & Hv).
           exists guild. split; [ now right | now split ].
    + exists (Raise e), es1.
      split; [ reflexivity | split; [ | split; [ | split ] ] ].
      * exists 1%nat. cbn [map firstn]. exact W1.
      * split; [ discriminate | ].
        intros H. inversion H as [|? ? Hg _]. apply P1 in Hg. discriminate.
      * discriminate.
      * intros g' Hin. destruct (L1 g' Hin) as [-> Hv].
        exists g. split; [ now left | now split ].
Qed.

Lemma check_guilds_summary (self : DefaultManager) (w : World) :
  exists (r : result unit) (es : list event),
    _check_guilds self w = (r, record_events (Get_bot_guilds :: es) w)
    /\ (exists k, whitelisted_calls es = firstn k (map id (bot_guilds w)))
    /\ (r = Ok tt <-> Forall (processed_cleanly self w) (bot_guilds w))
    /\ (r = Ok tt ->
        let left := map id (filter (verdict self w) (bot_guilds w)) in
        whitelisted_calls es = map id (bot_guilds w)
        /\ leave_decisions es = left /\ leave_calls es = left
        /\ after_leave_calls es = left)
    /\ (forall g', In g' (leave_calls es) ->
                   exists guild, In guild (bot_guilds w) /\ id guild = g'
                                 /\ verdict self w guild = true).
Proof.
  destruct (sweep_summary self w (bot_guilds w) (record_events [Get_bot_guilds] w)
              (same_platform_record [] [Get_bot_guilds] w w (same_platform_refl w)))
    as (r & es & E & H).
  exists r, es. split; [ | exact H ].
  unfold _check_guilds, get_bot_guilds. unfold bind at 1.
  now rewrite E, record_events_app.
Qed.

(** X8: a pass evaluates the guilds one by one in the order of
    [bot.guilds], each at most once: the guilds on which [whitelisted] was
    called form an initial segment of the list, and the whole list when the
    pass completes. *)
Theorem sweep_order (self : DefaultManager) (w : World) :
  let calls := whitelisted_calls (new_events w (snd (_check_guilds self w))) in
  (exists k, calls = firstn k (map id (bot_guilds w)))
  /\ (fst (_check_guilds self w) = Ok tt -> calls = map id (bot_guilds w)).
Proof.
  destruct (check_guilds_summary self w) as (r & es & E & K & _ & D & _).
  rewrite E. cbn [fst snd]. rewrite new_events_record_events.
  change (whitelisted_calls (Get_bot_guilds :: es)) with (whitelisted_calls es).
  split; [ exact K | ]. intros Hr. now destruct (D Hr).
Qed.




(** ** Construction *)

Lemma int_truediv_defined_wide (a b : Z) :
  Z.abs a < 2 ^ 1000 -> b <> 0 -> exists q, int_truediv a b = Ok q.
Proof.
  intros Ha Hb. unfold int_truediv.
  destruct (Z.eqb_spec b 0) as [|_]; [ contradiction | ].
  assert (Hfin : forall s, SFdiv prec emax (int_as_float a) (int_as_float b)
                           <> S754_infinity s).
  { intros s.
    assert (Hd : forall pa, Z.pos pa < 2 ^ 1000 -> Zdigits2 (Z.pos pa) <= 1000).
    { intros pa Hpa. rewrite digits_log2 by lia.
      assert (Z.log2 (Z.pos pa) < 1000); [ | lia ].
      apply Z.log2_lt_pow2; lia. }
    destruct a as [|pa|pa]; [ destruct b; cbn; discriminate | | ];
      (pose proof (Hd pa) as Hda;
       destruct b as [|pb|pb]; [ contradiction | | ]; cbn [int_as_float SFdiv];
       pose proof (SFdiv_core_bounds pa pb) as Hc;
       destruct (SFdiv_core_binary prec emax (Z.pos pa) 0 (Z.pos pb) 0)
         as [[q e] l];
       apply binary_round_aux_finite; lia). }
  destruct (SFdiv prec emax (int_as_float a) (int_as_float b)) as [s|s| |s m e];
    try (eexists; reflexivity).
  now destruct (Hfin s).
Qed.

Lemma total_seconds_defined (us : Z) :
  timedelta_min <= us <= timedelta_max -> exists s, total_seconds us = Ok s.
Proof.
  intros Hus. apply int_truediv_defined_wide; [ | lia ].
  assert (H : 2 ^ 70 < 2 ^ 1000) by (apply Z.pow_lt_mono_r; lia).
  unfold timedelta_min, timedelta_max in Hus. lia.
Qed.

(** X11: [__init__] fails, with [TypeError], exactly when [frequency] is
    neither [None], nor a [timedelta], nor an [int], [bool] or [float].
    Otherwise it returns an instance that holds the thresholds as they were
    passed, whatever they are, and whose [__seconds] is [MISSING] for
    [None], the number itself for a number (also 0, a negative one or a
    [bool]), and [total_seconds()] for a [timedelta]. *)
Theorem init_checks_frequency_only (cls : Class) (kw : Kwargs) :
  (forall us, kw_frequency kw = Some (Py_timedelta us) ->
              timedelta_min <= us <= timedelta_max) ->
  match kw_frequency kw with
  | Some (Py_other _) => __init__ cls kw = Raise TypeError
  | f =>
      exists cog,
        __init__ cls kw = Ok cog
        /\ max_guilds (manager cog) = kw_max_guilds kw
        /\ min_members (manager cog) = kw_min_members kw
        /\ max_members (manager cog) = kw_max_members kw
        /\ max_bot_ratio (manager cog) = kw_max_bot_ratio kw
        /\ min_guild_age (manager cog) = kw_min_guild_age kw
        /\ frequency cog = f
        /\ match f with
           | None => seconds cog = None
           | Some (Py_timedelta us) =>
               exists s, total_seconds us = Ok s /\ seconds cog = Some (Py_float s)
           | Some number => seconds cog = Some number
           end
  end.
Proof.
  intros Hrange. unfold __init__.
  destruct (kw_frequency kw) as [[us|n|b|x|c]|] eqn:Hf; cbn beta iota;
    try (eexists; repeat split; reflexivity).
  destruct (total_seconds_defined us (Hrange us eq_refl)) as [s Hs].
  rewrite Hs. eexists. repeat split. now exists s.
Qed.

Lemma init_checks_frequency_only_witness :
  exists cog,
    __init__ DefaultManager_class kwargs_every_5_minutes = Ok cog
    /\ min_members (manager cog) = Some 10
    /\ max_members (manager cog) = Some 5
    /\ seconds cog = Some (Py_float (S754_finite false 5277655813324800 (-44))).
Proof.
  destruct (init_checks_frequency_only DefaultManager_class kwargs_every_5_minutes)
    as (cog & E & _ & H2 & H3 & _ & _ & _ & s & Hs & Hsec).
  - intros us [= <-]. vm_compute. split; discriminate.
  - exists cog. repeat split; try assumption.
    rewrite Hsec. revert Hs. vm_compute. now intros [= <-].
Defined.

(** ** Scheduling *)

(** X12: the periodic sweep is scheduled exactly when [frequency] is not
    [None].  For an instance built with [frequency=None], [cog_load] and
    [cog_unload] do nothing at all.  For any other accepted [frequency]
    (0 and [False] included), [cog_load] sets the interval to [__seconds]
    and then starts the loop (which is not started if setting the interval
    raised), and [cog_unload] cancels it. *)
Theorem sweep_scheduled_iff_frequency
    (cls : Class) (kw : Kwargs) (cog : Cog) (loop : Loop) :
  __init__ cls kw = Ok cog ->
  match kw_frequency kw with
  | None =>
      cog_load loop cog = ret tt /\ cog_unload loop cog = ret tt
  | Some _ =>
      exists s,
        seconds cog = Some s
        /\ cog_load loop cog = (change_interval loop s ;; start loop)
        /\ cog_unload loop cog = cancel loop
        /\ forall w e w', change_interval loop s w = (Raise e, w') ->
                          cog_load loop cog w = (Raise e, w')
  end.
Proof.
  unfold __init__, cog_load, cog_unload.
  destruct (kw_frequency kw) as [[us|n|b|x|c]|];
    [ destruct (total_seconds us) as [s|e] | | | | | ];
    try discriminate; intros [= <-]; cbn [seconds];
    try (split; reflexivity);
    (eexists; split; [ reflexivity | split; [ reflexivity | split; [ reflexivity | ] ] ];
     intros w e w' E; unfold bind; now rewrite E).
Qed.

Lemma sweep_scheduled_iff_frequency_witness :
  exists cog,
    __init__ DefaultManager_class kwargs_frequency_zero = Ok cog
    /\ cog_load idle_loop cog
       = (change_interval idle_loop (Py_int 0) ;; start idle_loop).
Proof.
  eexists. split; [ reflexivity | ].
  destruct (sweep_scheduled_iff_frequency DefaultManager_class
              kwargs_frequency_zero _ idle_loop eq_refl)
    as (s & Hs & Hload & _).
  injection Hs as <-. exact Hload.
Defined.

(** X13: [setup] registers an instance with every default in place: the
    thresholds of [DefaultManager_init] and no sweep.  With it, a guild
    joined while fewer than 98 guilds are cached is evaluated by the two
    default predicates and kept; and loading the cog starts nothing. *)
Theorem setup_installs_the_limit_only :
  exists cog,
    (forall add_cog, setup add_cog = add_cog cog)
    /\ manager cog = DefaultManager_init
    /\ (forall loop, cog_load loop cog = ret tt)
    /\ (forall guild w,
          Z.of_nat (List.length (bot_guilds w)) < 98 ->
          _on_guild_join (manager cog) guild w
          = (Ok tt,
             record_events [Get_bot_guilds; Call_whitelisted (id guild);
                            Call_extra_criteria (id guild)] w)).
Proof.
  exists {| manager := DefaultManager_init; frequency := None; seconds := None |}.
  split; [ intros add_cog; reflexivity | ].
  split; [ reflexivity | split; [ reflexivity | ] ].
  intros guild w Hroom. apply Z.leb_gt in Hroom.
  cbn [manager]. run.
  change (max_guilds DefaultManager_init) with 98. rewrite Hroom.
  cbn [whitelisted extra_criteria min_members max_members max_bot_ratio
       min_guild_age DefaultManager_init whitelisted_default
       extra_criteria_default].
  now merge.
Qed.

(** ** Member counts at the bounds *)

(** X14: the member bounds are inclusive.  With both bounds set, the ratio
    test off, and neither the whitelist, the age test nor [extra_criteria]
    deciding, a guild with a known count is left exactly when the count is
    outside [min_members .. max_members]; with exactly [min_members] or
    exactly [max_members] members it is kept. *)
Theorem member_bounds_are_inclusive
    (self : DefaultManager) (guild : Guild) (w : World) (lo hi n : Z) :
  whitelisted self guild = false ->
  too_old self guild (clock w) = false ->
  min_members self = Some lo ->
  max_members self = Some hi ->
  max_bot_ratio self = None ->
  extra_criteria self guild = false ->
  member_count guild = Some n ->
  fst (leave_criteria self guild w) = Ok (negb ((lo <=? n) && (n <=? hi))).
Proof.
  intros Hwl Hold Hlo Hhi Hr Hex Hmc. rewrite leave_criteria_fst by exact Hwl.
  unfold too_few, too_many, too_many_bots. rewrite Hold, Hlo, Hhi, Hr, Hmc, Hex.
  cbn [orb].
  destruct (Z.ltb_spec n lo), (Z.ltb_spec hi n), (Z.leb_spec lo n),
    (Z.leb_spec n hi); cbn; try reflexivity; lia.
Qed.

Lemma member_bounds_are_inclusive_witness :
  fst (leave_criteria manager_bounds guild_a world_c9) = Ok false
  /\ fst (leave_criteria manager_bounds guild_b world_c9) = Ok false
  /\ fst (leave_criteria manager_bounds guild_new world_c9) = Ok true.
Proof.
  split; [ | split ].
  - apply (member_bounds_are_inclusive manager_bounds guild_a world_c9 40 50 40);
      reflexivity.
  - apply (member_bounds_are_inclusive manager_bounds guild_b world_c9 40 50 50);
      reflexivity.
  - apply (member_bounds_are_inclusive manager_bounds guild_new world_c9 40 50 60);
      reflexivity.
Defined.

(** X15: nothing checks that [min_members <= max_members].  With
    [min_members] above [max_members], every guild that is not whitelisted
    and whose member count is known is left, whatever the count and the
    other settings. *)
Theorem crossed_bounds_reject_everything
    (self : DefaultManager) (guild : Guild) (w : World) (lo hi n : Z) :
  whitelisted self guild = false ->
  min_members self = Some lo ->
  max_members self = Some hi ->
  hi < lo ->
  member_count guild = Some n ->
  fst (leave_criteria self guild w) = Ok true.
Proof.
  intros Hwl Hlo Hhi Hcross Hmc. rewrite leave_criteria_fst by exact Hwl.
  unfold too_few, too_many. rewrite Hlo, Hhi, Hmc.
  destruct (Z.ltb_spec n lo), (Z.ltb_spec hi n);
    rewrite ?orb_true_r; cbn; try reflexivity; lia.
Qed.

Lemma crossed_bounds_reject_everything_witness :
  exists cog,
    __init__ DefaultManager_class kwargs_every_5_minutes = Ok cog
    /\ fst (leave_criteria (manager cog) guild_c6 world_c6) = Ok true.
Proof.
  eexists. split; [ reflexivity | ].
  refine (crossed_bounds_reject_everything _ guild_c6 world_c6 10 5 5 _ _ _ _ _).
  - reflexivity.
  - reflexivity.
  - reflexivity.
  - lia.
  - reflexivity.
Defined.

(** ** The sweep leaves only what the criteria reject *)




(** ** Two passes of the sweep *)

Section Repeats.

Variable self : DefaultManager.
Variable gs : list Guild.

Lemma same_answers_record (es1 es2 : list event) (w1 w2 : World) :
  same_answers self gs w1 w2 ->
  same_answers self gs (record_events es1 w1) (record_events es2 w2).
Proof. intros H. exact H. Qed.

Lemma repeats_ret {A} (a : A) : repeats self gs (ret a).
Proof.
  intros w1 w2 _. exists (Ok a), []. now rewrite !record_events_nil.
Qed.

Lemma repeats_raise {A} (e : exn) : repeats self gs (@raise A e).
Proof.
  intros w1 w2 _. exists (Raise e), []. now rewrite !record_events_nil.
Qed.

Lemma repeats_lift {A} (r : result A) : repeats self gs (lift r).
Proof.
  intros w1 w2 _. exists r, []. now rewrite !record_events_nil.
Qed.

Lemma repeats_bind {A B} (m : M A) (k : A -> M B) :
  repeats self gs m -> (forall a, repeats self gs (k a)) ->
  repeats self gs (bind m k).
Proof.
  intros Hm Hk w1 w2 Hw.
  destruct (Hm w1 w2 Hw) as (r & es & E1 & E2).
  unfold bind. rewrite E1, E2. destruct r as [a|e].
  - destruct (Hk a _ _ (same_answers_record es es w1 w2 Hw))
      as (r' & es' & E1' & E2').
    exists r', (es ++ es'). now rewrite E1', E2', !record_events_app.
  - now exists (Raise e), es.
Qed.

Lemma repeats_emit (e : event) : repeats self gs (emit e).
Proof. intros w1 w2 _. now exists (Ok tt), [e]. Qed.

Lemma repeats_leave (guild : Guild) : repeats self gs (leave guild).
Proof.
  intros w1 w2 (_ & Hl & _). unfold leave. rewrite <- (Hl (id guild)).
  destruct (leave_raises w1 (id guild)).
  - now exists (Raise HTTPException), [Call_leave (id guild)].
  - now exists (Ok tt), [Call_leave (id guild)].
Qed.

Ltac repeats :=
  repeat first
    [ apply repeats_ret
    | apply repeats_raise
    | apply repeats_lift
    | apply repeats_emit
    | apply repeats_leave
    | apply repeats_bind; [ | intros ? ]
    | match goal with
      | |- repeats _ _ (match ?x with _ => _ end) => destruct x
      end ].








End Repeats.




